(** * Voice -> AI -> Voice: a shallow embedding of [app.py]

    The script is a Streamlit page: an in-browser recorder, a file uploader,
    one "process" button that chains three HTTP calls (speech-to-text, text
    generation, text-to-speech) and a diagnostic check box.

    What lives outside [app.py] is a parameter of the model:
    - the secrets store ([st.secrets]): the table of [secrets.toml], from
      names to values, or the exception that its load raises when there is
      no such file;
    - [requests.post], an oracle from the request to a response or an
      exception;
    - [pathlib.Path(..).suffix], a function on file names;
    - the two string literals under which the stage functions look their
      endpoint and their key up in the secrets.
    What the script does to the outside is recorded in a [world]: the file
    system, the temporary-file counter and the chronological trace of UI and
    HTTP events.

    Python values (JSON documents, secrets, the texts handed from stage to
    stage) are [pyval]; numbers are restricted to integers. *)

From Stdlib Require Import ZArith String Ascii List Bool.
From stdpp Require Import base option strings gmap list pretty.

Open Scope string_scope.
Open Scope list_scope.
Set Warnings "-register-all".

(** ** Python values *)

Inductive pyval : Type :=
| PNone
| PBool (b : bool)
| PInt (n : Z)
| PStr (s : string)
| PList (l : list pyval)
| PDict (d : gmap string pyval).

Abbreviation bytes := (list Byte.byte).

(** [bool(v)], the test behind [if v], [not v] and [v or w]. *)
Definition truthy (v : pyval) : bool :=
  match v with
  | PNone => false
  | PBool b => b
  | PInt n => negb (n =? 0)%Z
  | PStr s => negb (String.eqb s "")
  | PList l => match l with [] => false | _ :: _ => true end
  | PDict d => negb (bool_decide (d = ∅))
  end.

(** [a or b] on values already evaluated. *)
Definition py_or (a b : pyval) : pyval := if truthy a then a else b.

(** ** Exceptions and results *)

Inductive exn : Type :=
| TypeError
| AttributeError
| KeyError
| IndexError
| FileNotFoundError
| JSONDecodeError
| RequestException
| StreamlitSecretNotFoundError.

Inductive result (A : Type) : Type :=
| Ok (a : A)
| Raise (e : exn).
Arguments Ok {A} a.
Arguments Raise {A} e.

#[global] Instance result_ret : MRet result := λ A a, Ok a.
#[global] Instance result_bind : MBind result := λ A B f m,
  match m with
  | Ok a => f a
  | Raise e => Raise e
  end.

(** ** The operations of Python objects the script uses *)

(** [o.get(k, dflt)]: only a dict has [get]. *)
Definition py_get (o : pyval) (k : string) (dflt : pyval) : result pyval :=
  match o with
  | PDict d => Ok (default dflt (d !! k))
  | _ => Raise AttributeError
  end.

Definition is_str (k : string) (v : pyval) : bool :=
  match v with
  | PStr s => String.eqb s k
  | _ => false
  end.

(** [k in o] for a string [k]: key of a dict, element of a list, substring
    of a string. *)
Definition py_contains (k : string) (o : pyval) : result bool :=
  match o with
  | PDict d => Ok (bool_decide (is_Some (d !! k)))
  | PList l => Ok (existsb (is_str k) l)
  | PStr s => Ok (bool_decide (is_Some (String.index 0 k s)))
  | _ => Raise TypeError
  end.

(** [o[k]] for a string [k]. *)
Definition py_getitem (o : pyval) (k : string) : result pyval :=
  match o with
  | PDict d => match d !! k with Some v => Ok v | None => Raise KeyError end
  | _ => Raise TypeError
  end.

(** [o[0]]; the keys of a JSON object are strings, so [0] is never one. *)
Definition py_index0 (o : pyval) : result pyval :=
  match o with
  | PList (x :: _) => Ok x
  | PList [] => Raise IndexError
  | PStr (String c _) => Ok (PStr (String c ""))
  | PStr "" => Raise IndexError
  | PDict _ => Raise KeyError
  | _ => Raise TypeError
  end.

(** [len(o)]. *)
Definition py_len (o : pyval) : result nat :=
  match o with
  | PStr s => Ok (String.length s)
  | PList l => Ok (List.length l)
  | PDict d => Ok (size d)
  | _ => Raise TypeError
  end.

(** ** Response parsing *)

(** [data.get("text") or data.get("transcript") or data.get("result") or ""]
    (app.py:124). *)
Definition stt_extract (data : pyval) : result pyval :=
  t ← py_get data "text" PNone;
  if truthy t then Ok t else
  t2 ← py_get data "transcript" PNone;
  if truthy t2 then Ok t2 else
  t3 ← py_get data "result" PNone;
  Ok (py_or t3 (PStr "")).

(** The guard ["choices" in data and len(data["choices"])>0] (app.py:145). *)
Definition has_choices (data : pyval) : result bool :=
  c ← py_contains "choices" data;
  if c : bool then
    ch ← py_getitem data "choices";
    n ← py_len ch;
    Ok (bool_decide (0 < n))
  else Ok false.

(** [data["choices"][0].get("text") or
     data["choices"][0].get("message", {}).get("content","")] (app.py:146). *)
Definition choices_extract (data : pyval) : result pyval :=
  ch ← py_getitem data "choices";
  c0 ← py_index0 ch;
  t ← py_get c0 "text" PNone;
  if truthy t then Ok t else
  ch' ← py_getitem data "choices";
  c0' ← py_index0 ch';
  m ← py_get c0' "message" (PDict ∅);
  py_get m "content" (PStr "").

(** [data.get("response") or data.get("text") or ""] (app.py:147). *)
Definition flat_extract (data : pyval) : result pyval :=
  r ← py_get data "response" PNone;
  if truthy r then Ok r else
  t ← py_get data "text" PNone;
  Ok (py_or t (PStr "")).

(** app.py:145-147. *)
Definition llm_extract (data : pyval) : result pyval :=
  b ← has_choices data;
  if b : bool then choices_extract data else flat_extract data.

(** ** The outside world *)

Inductive stage : Type := Transcribe | Generate | Synthesize.

#[global] Instance stage_eq_dec : EqDecision stage.
Proof. solve_decision. Defined.

(** An [Authorization] header is the f-string ["Bearer {KEY}"]; the key is
    kept as the value read from the secrets. *)
Inductive header_value : Type :=
| Bearer (key : pyval)
| Literal (s : string).

(** [files=...] is a multipart upload, [json=...] a JSON document. *)
Inductive body : Type :=
| Files (parts : list (string * bytes))
| Json (payload : pyval).

Record request : Type := Request {
  url : pyval;
  headers : list (string * header_value);
  req_body : body;
  timeout : Z
}.

(** The attributes of a [requests.Response] the script reads; [json] is
    [None] when [resp.json()] raises. *)
Record response : Type := Response {
  status_code : Z;
  text : string;
  content : bytes;
  json : option pyval
}.

(** [secrets] is what [st.secrets] loads at its first use: the table of
    [secrets.toml], or the exception that the load raises (no such file,
    a file that is not TOML). *)
Record env : Type := Env {
  secrets : result (gmap string pyval);
  http : request → result response;
  path_suffix : string → string
}.

(** An entry of the secrets: none when the table has no such name, and none
    when there is no table. *)
#[global] Instance secrets_lookup : Lookup string pyval (result (gmap string pyval)) :=
  λ k store,
    match store with
    | Ok table => table !! k
    | Raise _ => None
    end.

Inductive event : Type :=
| StTitle (s : string)
| StRecorder
| StInfo (v : pyval)
| StError (msg : string)
| StWarning (msg : string)
| StMarkdown (msg : string)
| StSuccess (v : pyval)
| StAudio (path : string)
| StBalloons
| StWrite (report : list (string * bool))
| HttpPost (s : stage) (r : request).

Record world : Type := World {
  fs : gmap string bytes;
  tmp_count : nat;
  trace : list event
}.

(** ** The monad of the script: state and exceptions *)

Definition M (A : Type) : Type := world → result A * world.

#[global] Instance M_ret : MRet M := λ A a w, (Ok a, w).
#[global] Instance M_bind : MBind M := λ A B f m w,
  match m w with
  | (Ok a, w') => f a w'
  | (Raise e, w') => (Raise e, w')
  end.

Definition lift {A} (r : result A) : M A := λ w, (r, w).

Definition emit (e : event) : M unit := λ w,
  (Ok (), World (fs w) (tmp_count w) (trace w ++ [e])).

(** [open(path, "rb")] and the read of the whole file. *)
Definition open_rb (path : string) : M bytes := λ w,
  match fs w !! path with
  | Some b => (Ok b, w)
  | None => (Raise FileNotFoundError, w)
  end.

(** One [write] of the whole content to a file that is open for writing:
    the handle of a [NamedTemporaryFile], or a file the script has just
    created that way and opens again (app.py:203-204, 167). An [open] that
    can refuse its path is [open_wb_write] below. *)
Definition write_file (path : string) (data : bytes) : M unit := λ w,
  (Ok (), World (<[path := data]> (fs w)) (tmp_count w) (trace w)).

(** The name [tempfile] gives its [n]-th file: the counter stands for the
    random part of the name. *)
Definition tmp_name (n : nat) (suffix : string) : string :=
  "/tmp/tmp" +:+ pretty n +:+ suffix.

(** [tempfile.NamedTemporaryFile(delete=False, suffix=..)]: a new empty file
    that stays; the result is its [name]. *)
Definition named_temporary_file (suffix : string) : M string := λ w,
  let name := tmp_name (tmp_count w) suffix in
  (Ok name, World (<[name := []]> (fs w)) (S (tmp_count w)) (trace w)).

(** ** The messages shown to the user *)

Definition sending_msg (s : stage) : string :=
  match s with
  | Transcribe => "Sending audio to STT API..."
  | Generate => "Sending text to LLM..."
  | Synthesize => "Requesting TTS audio..."
  end.

Definition config_error_msg (s : stage) : string :=
  match s with
  | Transcribe => "STT endpoint/key not configured. Check .streamlit/secrets.toml."
  | Generate => "LLM endpoint/key not configured. Check .streamlit/secrets.toml."
  | Synthesize => "TTS endpoint/key not configured. Check .streamlit/secrets.toml."
  end.

(** [f"STT API error: {resp.status_code} {resp.text}"] and its siblings. *)
Definition remote_error_msg (s : stage) (resp : response) : string :=
  match s with
  | Transcribe => "STT API error: "
  | Generate => "LLM API error: "
  | Synthesize => "TTS API error: "
  end +:+ pretty (status_code resp) +:+ " " +:+ text resp.

Definition empty_result_msg (s : stage) : string :=
  match s with
  | Transcribe => "No transcription returned."
  | Generate => "LLM didn't return a reply."
  | Synthesize => "TTS failed."
  end.

Definition no_audio_msg : string :=
  "No audio available. Use the recorder (top) or upload a file.".

Definition recorder_hint_msg : string :=
  "If the recorder did not return audio, please use 'Upload audio' fallback below.".

(** ** The names read from the secrets *)

(** The names the diagnostic reads (app.py:217-219). *)
Definition diag_name (s : stage) : string :=
  match s with
  | Transcribe => "STT_ENDPOINT"
  | Generate => "LLM_ENDPOINT"
  | Synthesize => "TTS_ENDPOINT"
  end.

(** ** The script *)

Record uploaded : Type := Uploaded {
  uf_name : string;
  uf_data : bytes
}.

(** What the browser hands to one run of the script: the payload posted by
    the recorder, the uploader's file, and the two controls. *)
Record ui_input : Type := UiInput {
  recorded : option string;
  uploaded_file : option uploaded;
  process_clicked : bool;
  show_apis : bool
}.

(** [bool(p)] for [p] a path or [None]. *)
Definition path_truthy (p : option string) : bool :=
  match p with
  | None => false
  | Some s => negb (String.eqb s "")
  end.

Section App.

(** The two string literals that the stage functions pass to
    [st.secrets.get] as the names of their endpoint entry (app.py:111, 132,
    155) and of their key entry (app.py:112, 133, 156). Each is the same
    literal in the three functions. They read like a deployment's address
    and credential, so they are parameters here and are not spelled out:
    nothing below depends on their characters. *)
Variable endpoint_literal : string.
Variable key_literal : string.

Variable E : env.

Definition endpoint_name (s : stage) : string :=
  match s with
  | Transcribe => endpoint_literal
  | Generate => endpoint_literal
  | Synthesize => endpoint_literal
  end.

Definition key_name (s : stage) : string :=
  match s with
  | Transcribe => key_literal
  | Generate => key_literal
  | Synthesize => key_literal
  end.

(** [st.secrets.get(k, dflt)]: the entry, or [dflt] when the table has no
    such name; the exception of the load when there is no table. *)
Definition secrets_get (k : string) (dflt : pyval) : result pyval :=
  match secrets E with
  | Ok table => Ok (default dflt (table !! k))
  | Raise e => Raise e
  end.

(** The value [st.secrets.get(k, dflt)] returns when it returns. *)
Definition secret_value (k : string) (dflt : pyval) : pyval :=
  default dflt (secrets E !! k).

(** The test [not ENDPOINT or not KEY] of a stage (app.py:113, 134, 157), on
    the values the two reads return. *)
Definition config_missing (s : stage) : bool :=
  negb (truthy (secret_value (endpoint_name s) PNone))
  || negb (truthy (secret_value (key_name s) PNone)).

Definition stage_configured (s : stage) : bool := negb (config_missing s).

(** [requests.post(..)]: the call is recorded, the oracle answers. *)
Definition requests_post (s : stage) (r : request) : M response := λ w,
  (http E r, World (fs w) (tmp_count w) (trace w ++ [HttpPost s r])).

(** [resp.json()]. *)
Definition resp_json (resp : response) : M pyval :=
  lift (match json resp with
        | Some data => Ok data
        | None => Raise JSONDecodeError
        end).

(** The three requests, as the stages build them. *)
Definition stt_request (STT_ENDPOINT STT_KEY : pyval) (f : bytes) : request :=
  Request STT_ENDPOINT [("Authorization", Bearer STT_KEY)]
          (Files [("file", f)]) 120.

Definition llm_request (LLM_ENDPOINT LLM_KEY user_text : pyval) : request :=
  Request LLM_ENDPOINT
          [("Authorization", Bearer LLM_KEY);
           ("Content-Type", Literal "application/json")]
          (Json (PDict (<["prompt" := user_text]> {["max_tokens" := PInt 512]})))
          60.

Definition tts_request_with (TTS_ENDPOINT TTS_KEY reply voice : pyval) : request :=
  Request TTS_ENDPOINT
          [("Authorization", Bearer TTS_KEY);
           ("Content-Type", Literal "application/json")]
          (Json (PDict (<["text" := reply]> {["voice" := voice]})))
          120.

Definition tts_request (TTS_ENDPOINT TTS_KEY reply : pyval) : request :=
  tts_request_with TTS_ENDPOINT TTS_KEY reply
                   (secret_value "TTS_VOICE" (PStr "default")).

(** app.py:104-124. *)
Definition call_stt_api (local_file_path : string) : M pyval :=
  emit (StInfo (PStr (sending_msg Transcribe)));;
  STT_ENDPOINT ← lift (secrets_get (endpoint_name Transcribe) PNone);
  STT_KEY ← lift (secrets_get (key_name Transcribe) PNone);
  if negb (truthy STT_ENDPOINT) || negb (truthy STT_KEY) then
    emit (StError (config_error_msg Transcribe));;
    mret (PStr "")
  else
    f ← open_rb local_file_path;
    resp ← requests_post Transcribe (stt_request STT_ENDPOINT STT_KEY f);
    if negb (status_code resp =? 200)%Z then
      emit (StError (remote_error_msg Transcribe resp));;
      mret (PStr "")
    else
      data ← resp_json resp;
      lift (stt_extract data).

(** app.py:126-147. *)
Definition call_llm_api (user_text : pyval) : M pyval :=
  emit (StInfo (PStr (sending_msg Generate)));;
  LLM_ENDPOINT ← lift (secrets_get (endpoint_name Generate) PNone);
  LLM_KEY ← lift (secrets_get (key_name Generate) PNone);
  if negb (truthy LLM_ENDPOINT) || negb (truthy LLM_KEY) then
    emit (StError (config_error_msg Generate));;
    mret (PStr "")
  else
    resp ← requests_post Generate (llm_request LLM_ENDPOINT LLM_KEY user_text);
    if negb (status_code resp =? 200)%Z then
      emit (StError (remote_error_msg Generate resp));;
      mret (PStr "")
    else
      data ← resp_json resp;
      lift (llm_extract data).

(** app.py:149-169; the result is [out_path] or [None]. The handler passes
    the temporary file it has just created, so the [open] of [out_path] is
    taken to succeed. *)
Definition call_tts_api (reply : pyval) (out_path : string) : M (option string) :=
  emit (StInfo (PStr (sending_msg Synthesize)));;
  TTS_ENDPOINT ← lift (secrets_get (endpoint_name Synthesize) PNone);
  TTS_KEY ← lift (secrets_get (key_name Synthesize) PNone);
  if negb (truthy TTS_ENDPOINT) || negb (truthy TTS_KEY) then
    emit (StError (config_error_msg Synthesize));;
    mret None
  else
    voice ← lift (secrets_get "TTS_VOICE" (PStr "default"));
    resp ← requests_post Synthesize
             (tts_request_with TTS_ENDPOINT TTS_KEY reply voice);
    if negb (status_code resp =? 200)%Z then
      emit (StError (remote_error_msg Synthesize resp));;
      mret None
    else
      write_file out_path (content resp);;
      mret (Some out_path).

(** The three stages in sequence: the [else] branch of the handler
    (app.py:186-210). *)
Definition pipeline (audio_path : string) : M unit :=
  user_text ← call_stt_api audio_path;
  if negb (truthy user_text) then emit (StError (empty_result_msg Transcribe))
  else
    emit (StMarkdown "**You said:**");;
    emit (StInfo user_text);;
    ai_reply ← call_llm_api user_text;
    if negb (truthy ai_reply) then emit (StError (empty_result_msg Generate))
    else
      emit (StMarkdown "**AI reply:**");;
      emit (StSuccess ai_reply);;
      out_path ← named_temporary_file ".mp3";
      tts_file ← call_tts_api ai_reply out_path;
      if path_truthy tts_file then
        match tts_file with
        | Some p => emit (StAudio p);; emit StBalloons
        | None => mret ()  (* not reached: [None] is not truthy *)
        end
      else emit (StError (empty_result_msg Synthesize)).

(** The body of [if st.button(..)] (app.py:174-210). *)
Definition process_audio (uploaded_file : option uploaded) : M unit :=
  audio_path ← match uploaded_file with
                | Some uf =>
                    tmp ← named_temporary_file (path_suffix E (uf_name uf));
                    write_file tmp (uf_data uf);;
                    mret (Some tmp)
                | None => mret None
                end;
  if negb (path_truthy audio_path) then emit (StWarning no_audio_msg)
  else
    match audio_path with
    | Some p => pipeline p
    | None => mret ()  (* not reached: [None] is not truthy *)
    end.

(** [bool(st.secrets.get(NAME))] for the name the diagnostic shows for a
    stage (app.py:217-219). *)
Definition diag_reports (s : stage) : bool :=
  truthy (secret_value (diag_name s) PNone).

(** The dict given to [st.write] (app.py:216-220), when the three reads
    return. *)
Definition diagnostic : list (string * bool) :=
  [("STT_ENDPOINT", truthy (secret_value "STT_ENDPOINT" PNone));
   ("LLM_ENDPOINT", truthy (secret_value "LLM_ENDPOINT" PNone));
   ("TTS_ENDPOINT", truthy (secret_value "TTS_ENDPOINT" PNone))].

(** The dict as the script builds it: three reads of the secrets, in order
    (app.py:217-219). *)
Definition read_diagnostic : result (list (string * bool)) :=
  stt ← secrets_get "STT_ENDPOINT" PNone;
  llm ← secrets_get "LLM_ENDPOINT" PNone;
  tts ← secrets_get "TTS_ENDPOINT" PNone;
  Ok [("STT_ENDPOINT", truthy stt);
      ("LLM_ENDPOINT", truthy llm);
      ("TTS_ENDPOINT", truthy tts)].

(** One run of the script, top to bottom. The value of
    [components.html(..)] is dropped (app.py:76), so [recorded i] is not
    used. *)
Definition app (i : ui_input) : M unit :=
  emit (StTitle "🎤 Voice → AI → Voice (Streamlit)");;
  emit StRecorder;;
  emit (StInfo (PStr recorder_hint_msg));;
  (if process_clicked i then process_audio (uploaded_file i) else mret ());;
  if show_apis i then
    report ← lift read_diagnostic;
    emit (StWrite report)
  else mret ().

End App.

(** ** The vocabulary of the specification, read off a run *)

(** The states of the pipeline. The script keeps no state variable: a run
    of the handler is classified by what it showed. *)
Inductive pipeline_state : Type :=
| Idle | Transcribing | Generating | Synthesizing | Done | Aborted.

Definition is_audio (e : event) : bool :=
  match e with StAudio _ => true | _ => false end.

Definition is_error (e : event) : bool :=
  match e with StError _ => true | _ => false end.

Definition is_http (e : event) : bool :=
  match e with HttpPost _ _ => true | _ => false end.

Definition is_http_of (s : stage) (e : event) : bool :=
  match e with HttpPost s' _ => bool_decide (s' = s) | _ => false end.

(** A stage function starts with its [st.info] line, so a run that does not
    show the line did not call the function. *)
Definition invoked (s : stage) (evs : list event) : Prop :=
  StInfo (PStr (sending_msg s)) ∈ evs.

(** The state in which a run of the handler ends: [Done] when the audio reached
    [st.audio], [Aborted] when an error was shown or an exception ended the
    run, [Idle] when neither happened. *)
Definition final_state (r : result unit) (evs : list event) : pipeline_state :=
  match r with
  | Raise _ => Aborted
  | Ok _ =>
      if existsb is_audio evs then Done
      else if existsb is_error evs then Aborted
      else Idle
  end.


(** The error lines of a run, in order. *)
Definition errors_shown (evs : list event) : list string :=
  omap (λ e, match e with StError m => Some m | _ => None end) evs.

(** The events a computation adds to the trace of the world it starts in. *)
Definition events_of {A} (m : M A) (w : world) : list event :=
  drop (length (trace w)) (trace (snd (m w))).

(** The world with more events shown. *)
Definition shown (w : world) (evs : list event) : world :=
  World (fs w) (tmp_count w) (trace w ++ evs).

(** The path and the world once the handler has saved the upload
    (app.py:179-181). *)
Definition upload_path (E : env) (uf : uploaded) (w : world) : string :=
  tmp_name (tmp_count w) (path_suffix E (uf_name uf)).

Definition after_upload (E : env) (uf : uploaded) (w : world) : world :=
  World (<[upload_path E uf w := uf_data uf]> (<[upload_path E uf w := []]> (fs w)))
        (S (tmp_count w)) (trace w).

(** The path of the output file of a run that gets to the third stage
    (app.py:203-204). *)
Definition output_path (w : world) : string := tmp_name (S (tmp_count w)) ".mp3".

(** *** Field lookups as ordered rules

    Two readings of "the first field wins" over a list of field names in
    priority order: the first field that is present, and the first field
    whose value is truthy. *)
Fixpoint first_present (d : gmap string pyval) (fields : list string) : option pyval :=
  match fields with
  | [] => None
  | k :: ks =>
      match d !! k with
      | Some v => Some v
      | None => first_present d ks
      end
  end.

Fixpoint first_truthy (d : gmap string pyval) (fields : list string) : option pyval :=
  match fields with
  | [] => None
  | k :: ks =>
      match d !! k with
      | Some v => if truthy v then Some v else first_truthy d ks
      | None => first_truthy d ks
      end
  end.

Definition stt_fields : list string := ["text"; "transcript"; "result"].
Definition flat_fields : list string := ["response"; "text"].

(** A field that is absent or holds the empty string. *)
Definition field_empty (d : gmap string pyval) (k : string) : Prop :=
  d !! k = None ∨ d !! k = Some (PStr "").

(** *** One call of a stage function, as a function

    The result of a call and the events it adds, as a function of the
    secrets, of the file read (for the first stage) and of the oracle's answer
    to the one request the call sends. *)
Section Outcomes.

Variables (ep key : string) (E : env).

Definition endpoint_value (s : stage) : pyval :=
  secret_value E (endpoint_name ep s) PNone.

Definition key_value (s : stage) : pyval :=
  secret_value E (key_name key s) PNone.

(** After the request: nothing more on an exception, the error line on a
    status other than 200, else the parsed result. *)
Definition after_request {A} (s : stage) (req : request) (failed : A)
    (parse : response → result A) : result A * list event :=
  match http E req with
  | Raise e => (Raise e, [StInfo (PStr (sending_msg s)); HttpPost s req])
  | Ok resp =>
      if negb (status_code resp =? 200)%Z then
        (Ok failed, [StInfo (PStr (sending_msg s)); HttpPost s req;
                     StError (remote_error_msg s resp)])
      else (parse resp, [StInfo (PStr (sending_msg s)); HttpPost s req])
  end.

Definition parse_json {A} (extract : pyval → result A) (resp : response) : result A :=
  match json resp with
  | Some data => extract data
  | None => Raise JSONDecodeError
  end.

Definition stage_outcome {A} (s : stage) (failed : A)
    (req : result request) (parse : response → result A) : result A * list event :=
  match secrets E with
  | Raise e => (Raise e, [StInfo (PStr (sending_msg s))])
  | Ok _ =>
      if config_missing ep key E s then
        (Ok failed, [StInfo (PStr (sending_msg s)); StError (config_error_msg s)])
      else
        match req with
        | Raise e => (Raise e, [StInfo (PStr (sending_msg s))])
        | Ok req => after_request s req failed parse
        end
  end.

Definition stt_outcome (file : option bytes) : result pyval * list event :=
  stage_outcome Transcribe (PStr "")
    (match file with
     | Some f => Ok (stt_request (endpoint_value Transcribe) (key_value Transcribe) f)
     | None => Raise FileNotFoundError
     end)
    (parse_json stt_extract).

Definition llm_outcome (user_text : pyval) : result pyval * list event :=
  stage_outcome Generate (PStr "")
    (Ok (llm_request (endpoint_value Generate) (key_value Generate) user_text))
    (parse_json llm_extract).

Definition tts_outcome (reply : pyval) (out_path : string)
  : result (option string) * list event :=
  stage_outcome Synthesize None
    (Ok (tts_request E (endpoint_value Synthesize) (key_value Synthesize) reply))
    (λ _, Ok (Some out_path)).

(** The bytes [call_tts_api] writes to [out_path], if it gets that far. *)
Definition tts_written (reply : pyval) : option bytes :=
  if config_missing ep key E Synthesize then None
  else match http E (tts_request E (endpoint_value Synthesize)
                                 (key_value Synthesize) reply) with
       | Ok resp => if negb (status_code resp =? 200)%Z then None
                    else Some (content resp)
       | Raise _ => None
       end.

End Outcomes.

(** *** A sample deployment

    Names, secrets, an oracle and an upload on which the statements below can
    be run. The oracle tells the three requests apart by their body. *)
Definition sample_ep : string := "ENDPOINT".
Definition sample_key : string := "KEY".

Definition sample_secrets : gmap string pyval :=
  <[sample_ep := PStr "https://api.example/v1"]> {[sample_key := PStr "k"]}.

Definition sample_audio : bytes := [Byte.x01; Byte.x02; Byte.x03].

Definition sample_stt_response : response :=
  Response 200 "" [] (Some (PDict {["transcript" := PStr "hello"]})).

Definition sample_llm_response : response :=
  Response 200 "" []
    (Some (PDict {["choices" :=
       PList [PDict {["message" := PDict {["content" := PStr "hi there"]}]}]]})).

Definition sample_tts_response : response := Response 200 "" sample_audio None.

Definition sample_http (r : request) : result response :=
  match req_body r with
  | Files _ => Ok sample_stt_response
  | Json (PDict d) =>
      match d !! "prompt" with
      | Some _ => Ok sample_llm_response
      | None => Ok sample_tts_response
      end
  | Json _ => Raise RequestException
  end.

Definition sample_env : env := Env (Ok sample_secrets) sample_http (λ _, ".wav").

Definition sample_upload : uploaded := Uploaded "clip.wav" [Byte.x2a].

Definition sample_world : world := World ∅ 0 [].

(** The same deployment with other answers from the endpoint. *)
Definition env_answering (answer : request → result response) : env :=
  Env (Ok sample_secrets) answer (λ _, ".wav").


(** A [secrets.toml] as the page's diagnostic and its error lines suggest
    it: an endpoint and a key for each stage. *)
Definition natural_secrets : gmap string pyval :=
  <["STT_ENDPOINT" := PStr "https://stt.example/v1"]>
  (<["STT_KEY" := PStr "stt-key"]>
  (<["LLM_ENDPOINT" := PStr "https://llm.example/v1"]>
  (<["LLM_KEY" := PStr "llm-key"]>
  (<["TTS_ENDPOINT" := PStr "https://tts.example/v1"]>
  {["TTS_KEY" := PStr "tts-key"]})))).

Definition natural_env : env := Env (Ok natural_secrets) sample_http (λ _, ".wav").

(** *** The handler as a function of the stage outcomes *)

(** What the check box adds to a run that got to it: the dict, or the
    exception of the load of the secrets. *)
Definition diagnostic_outcome (E : env) (show : bool) : result unit * list event :=
  if show then
    match secrets E with
    | Ok _ => (Ok (), [StWrite (diagnostic E)])
    | Raise e => (Raise e, [])
    end
  else (Ok (), []).

(** The stages of the requests among some events, in order. *)
Definition http_stages (evs : list event) : list stage :=
  omap (λ e, match e with HttpPost s _ => Some s | _ => None end) evs.

(** The requests among some events, in order. *)
Definition http_requests (evs : list event) : list request :=
  omap (λ e, match e with HttpPost _ r => Some r | _ => None end) evs.

(** What the handler shows once [call_tts_api] is back (app.py:206-210). *)
Definition playback_events (tts_file : result (option string)) : list event :=
  match tts_file with
  | Ok (Some p) =>
      if path_truthy (Some p) then [StAudio p; StBalloons]
      else [StError (empty_result_msg Synthesize)]
  | Ok None => [StError (empty_result_msg Synthesize)]
  | Raise _ => []
  end.

Section Runs.

Variables (ep key : string) (E : env).

(** The reply with which the third stage is called, if the run gets there. *)
Definition reply_reached (file : option bytes) : option pyval :=
  match fst (stt_outcome ep key E file) with
  | Ok t =>
      if negb (truthy t) then None
      else match fst (llm_outcome ep key E t) with
           | Ok r => if negb (truthy r) then None else Some r
           | Raise _ => None
           end
  | Raise _ => None
  end.

(** The result of [pipeline] and the events it shows, from the file it is
    given and the path of its output file. *)
Definition pipeline_events (file : option bytes) (out : string)
  : result unit * list event :=
  let o1 := stt_outcome ep key E file in
  match fst o1 with
  | Raise e => (Raise e, snd o1)
  | Ok t =>
      if negb (truthy t) then
        (Ok (), snd o1 ++ [StError (empty_result_msg Transcribe)])
      else
        let o2 := llm_outcome ep key E t in
        match fst o2 with
        | Raise e =>
            (Raise e, snd o1 ++ [StMarkdown "**You said:**"; StInfo t] ++ snd o2)
        | Ok r =>
            if negb (truthy r) then
              (Ok (), snd o1 ++ [StMarkdown "**You said:**"; StInfo t] ++ snd o2
                      ++ [StError (empty_result_msg Generate)])
            else
              let o3 := tts_outcome ep key E r out in
              (match fst o3 with Raise e => Raise e | Ok _ => Ok () end,
               snd o1 ++ [StMarkdown "**You said:**"; StInfo t] ++ snd o2
               ++ [StMarkdown "**AI reply:**"; StSuccess r] ++ snd o3
               ++ playback_events (fst o3))
        end
  end.

(** The files after [pipeline]: the output file is created when the third
    stage is reached, and filled when that stage gets its answer. *)
Definition pipeline_files (file : option bytes) (out : string)
    (files : gmap string bytes) : gmap string bytes :=
  match reply_reached file with
  | Some r =>
      match tts_written ep key E r with
      | Some c => <[out := c]> (<[out := []]> files)
      | None => <[out := []]> files
      end
  | None => files
  end.

Definition pipeline_count (file : option bytes) (n : nat) : nat :=
  match reply_reached file with
  | Some _ => S n
  | None => n
  end.

(** The same for the handler. *)
Definition handler_events (uploaded_file : option uploaded) (w : world)
  : result unit * list event :=
  match uploaded_file with
  | Some uf => pipeline_events (Some (uf_data uf)) (output_path w)
  | None => (Ok (), [StWarning no_audio_msg])
  end.

Definition handler_files (uploaded_file : option uploaded) (w : world)
  : gmap string bytes :=
  match uploaded_file with
  | Some uf =>
      pipeline_files (Some (uf_data uf)) (output_path w) (fs (after_upload E uf w))
  | None => fs w
  end.

Definition handler_count (uploaded_file : option uploaded) (w : world) : nat :=
  match uploaded_file with
  | Some uf => pipeline_count (Some (uf_data uf)) (S (tmp_count w))
  | None => tmp_count w
  end.

End Runs.

(** *** The helper the page does not call

    [save_base64_audio_to_file] (app.py:98-102). Two things are parameters:
    [base64.b64decode], which gives the bytes or raises, and the exception
    with which [open(path, "wb")] refuses a path, if it does (a directory
    that does not exist, a place the process may not write to): the caller
    chooses [out_path]. *)
Section SaveBase64.

Variable b64decode : string → result bytes.
Variable open_error : string → option exn.

(** [with open(path, "wb") as f: f.write(data)] for a path of the caller. *)
Definition open_wb_write (path : string) (data : bytes) : M unit :=
  match open_error path with
  | Some e => lift (Raise e)
  | None => write_file path data
  end.

Definition save_base64_audio_to_file (b64 : string) (out_path : string) : M string :=
  audio_bytes ← lift (b64decode b64);
  open_wb_write out_path audio_bytes;;
  mret out_path.

End SaveBase64.

(** * Properties *)

(** ** Steps of the monad *)

Ltac tidy :=
  repeat (cbn [fst snd fs tmp_count trace negb app] || rewrite <- app_assoc).

Ltac unfold_stage :=
  unfold stage_outcome, after_request, parse_json, config_missing,
    endpoint_value, key_value, tts_request, secret_value, secrets_get,
    open_rb, requests_post, resp_json, lift;
  unfold mbind, M_bind, mret, M_ret, emit; tidy.

Lemma lookup_loaded (table : gmap string pyval) (k : string) :
  (Ok table : result (gmap string pyval)) !! k = table !! k.
Proof. reflexivity. Qed.

Lemma lookup_unloaded (e : exn) (k : string) :
  (Raise e : result (gmap string pyval)) !! k = None.
Proof. reflexivity. Qed.

Lemma bind_emit {A} (e : event) (k : M A) (w : world) :
  (emit e ;; k) w = k (shown w [e]).
Proof. reflexivity. Qed.

Lemma bind_ok {A B} (m : M A) (f : A → M B) (w w' : world) (a : A) :
  m w = (Ok a, w') → (m ≫= f) w = f a w'.
Proof. intros H. unfold mbind, M_bind. by rewrite H. Qed.

Lemma bind_raise {A B} (m : M A) (f : A → M B) (w w' : world) (e : exn) :
  m w = (Raise e, w') → (m ≫= f) w = (Raise e, w').
Proof. intros H. unfold mbind, M_bind. by rewrite H. Qed.

Lemma shown_shown (w : world) (evs evs' : list event) :
  shown (shown w evs) evs' = shown w (evs ++ evs').
Proof. unfold shown. simpl. by rewrite <- app_assoc. Qed.

Lemma events_of_shown {A} (m : M A) (w : world) (r : result A) (w' : world)
    (evs : list event) :
  m w = (r, w') → trace w' = trace w ++ evs → events_of m w = evs.
Proof.
  intros Hm Ht. unfold events_of. rewrite Hm. simpl. rewrite Ht.
  apply drop_app_length.
Qed.

(** ** The stage functions *)

Section StageFacts.

Variables (ep key : string) (E : env).

(** The three stages read the same two entries. *)
Lemma config_missing_shared s s' :
  config_missing ep key E s = config_missing ep key E s'.
Proof. by destruct s, s'. Qed.

Lemma call_stt_api_outcome p w :
  call_stt_api ep key E p w =
    (fst (stt_outcome ep key E (fs w !! p)),
     shown w (snd (stt_outcome ep key E (fs w !! p)))).
Proof.
  unfold call_stt_api, stt_outcome, shown. unfold_stage.
  destruct (secrets E) as [table|e0]; rewrite ?lookup_loaded; tidy; [|done].
  destruct (negb _ || negb _); tidy; [done|].
  destruct (fs w !! p) as [f|]; tidy; [|done].
  destruct (http E _) as [resp|e]; tidy; [|done].
  destruct (status_code resp =? 200)%Z; tidy; [|done].
  by destruct (json resp).
Qed.

Lemma call_llm_api_outcome user_text w :
  call_llm_api ep key E user_text w =
    (fst (llm_outcome ep key E user_text),
     shown w (snd (llm_outcome ep key E user_text))).
Proof.
  unfold call_llm_api, llm_outcome, shown. unfold_stage.
  destruct (secrets E) as [table|e0]; rewrite ?lookup_loaded; tidy; [|done].
  destruct (negb _ || negb _); tidy; [done|].
  destruct (http E _) as [resp|e]; tidy; [|done].
  destruct (status_code resp =? 200)%Z; tidy; [|done].
  by destruct (json resp).
Qed.

Lemma call_tts_api_outcome reply out_path w :
  call_tts_api ep key E reply out_path w =
    (fst (tts_outcome ep key E reply out_path),
     World (match tts_written ep key E reply with
            | Some c => <[out_path := c]> (fs w)
            | None => fs w
            end)
           (tmp_count w) (trace w ++ snd (tts_outcome ep key E reply out_path))).
Proof.
  unfold call_tts_api, tts_outcome, tts_written, write_file. unfold_stage.
  destruct (secrets E) as [table|e0]; rewrite ?lookup_loaded; tidy; [|done].
  destruct (negb _ || negb _); tidy; [done|].
  destruct (http E _) as [resp|e]; tidy; [|done].
  destruct (status_code resp =? 200)%Z; by tidy.
Qed.

End StageFacts.

(** ** Outcomes under the usual conditions *)

Section OutcomeFacts.

Variables (ep key : string) (E : env).

(** A stage that passes its test has read its entries from a table. *)
Lemma configured_loaded s :
  config_missing ep key E s = false → ∃ table, secrets E = Ok table.
Proof.
  unfold config_missing, secret_value.
  destruct (secrets E) as [table|e]; [eauto|by rewrite !lookup_unloaded].
Qed.

Lemma config_missing_unloaded s e :
  secrets E = Raise e → config_missing ep key E s = true.
Proof.
  intros H. unfold config_missing, secret_value. by rewrite H, !lookup_unloaded.
Qed.


Lemma stage_outcome_missing {A} s (failed : A) req parse table :
  secrets E = Ok table →
  config_missing ep key E s = true →
  stage_outcome ep key E s failed req parse =
    (Ok failed, [StInfo (PStr (sending_msg s)); StError (config_error_msg s)]).
Proof. intros Hl H. unfold stage_outcome. by rewrite Hl, H. Qed.

Lemma stage_outcome_status {A} s (failed : A) req parse resp :
  config_missing ep key E s = false →
  http E req = Ok resp →
  status_code resp ≠ 200%Z →
  stage_outcome ep key E s failed (Ok req) parse =
    (Ok failed, [StInfo (PStr (sending_msg s)); HttpPost s req;
                 StError (remote_error_msg s resp)]).
Proof.
  intros Hc Hr Hs. destruct (configured_loaded s Hc) as [table Hl].
  unfold stage_outcome, after_request. rewrite Hl, Hc, Hr.
  apply Z.eqb_neq in Hs. by rewrite Hs.
Qed.

Lemma stage_outcome_200 {A} s (failed : A) req parse resp :
  config_missing ep key E s = false →
  http E req = Ok resp →
  status_code resp = 200%Z →
  stage_outcome ep key E s failed (Ok req) parse =
    (parse resp, [StInfo (PStr (sending_msg s)); HttpPost s req]).
Proof.
  intros Hc Hr Hs. destruct (configured_loaded s Hc) as [table Hl].
  unfold stage_outcome, after_request. rewrite Hl, Hc, Hr, Hs.
  reflexivity.
Qed.

Lemma stage_outcome_raise {A} s (failed : A) req parse e :
  config_missing ep key E s = false →
  http E req = Raise e →
  stage_outcome ep key E s failed (Ok req) parse =
    (Raise e, [StInfo (PStr (sending_msg s)); HttpPost s req]).
Proof.
  intros Hc Hr. destruct (configured_loaded s Hc) as [table Hl].
  unfold stage_outcome, after_request. by rewrite Hl, Hc, Hr.
Qed.

Lemma tts_written_200 reply resp :
  config_missing ep key E Synthesize = false →
  http E (tts_request E (endpoint_value ep E Synthesize)
                      (key_value key E Synthesize) reply) = Ok resp →
  status_code resp = 200%Z →
  tts_written ep key E reply = Some (content resp).
Proof. intros Hc Hr Hs. unfold tts_written. by rewrite Hc, Hr, Hs. Qed.

(** An absent entry fails the stage's test. *)
Lemma absent_config_missing s :
  secrets E !! endpoint_name ep s = None ∨ secrets E !! key_name key s = None →
  config_missing ep key E s = true.
Proof.
  unfold config_missing, secret_value. intros [H|H]; rewrite H; simpl; [done|].
  apply orb_true_r.
Qed.

End OutcomeFacts.

(** ** The handler *)

Section HandlerFacts.

Variables (ep key : string) (E : env).

Lemma tmp_name_truthy n sfx : path_truthy (Some (tmp_name n sfx)) = true.
Proof. reflexivity. Qed.

Lemma process_audio_none w :
  process_audio ep key E None w = (Ok (), shown w [StWarning no_audio_msg]).
Proof. reflexivity. Qed.

Lemma process_audio_some uf w :
  process_audio ep key E (Some uf) w =
    pipeline ep key E (upload_path E uf w) (after_upload E uf w).
Proof. reflexivity. Qed.

Lemma after_upload_file uf w :
  fs (after_upload E uf w) !! upload_path E uf w = Some (uf_data uf).
Proof. unfold after_upload. simpl. apply lookup_insert_eq. Qed.

(** The first stage gave nothing: the run stops there. *)
Lemma pipeline_no_transcript p w t evs :
  stt_outcome ep key E (fs w !! p) = (Ok t, evs) →
  truthy t = false →
  pipeline ep key E p w =
    (Ok (), shown w (evs ++ [StError (empty_result_msg Transcribe)])).
Proof.
  intros Ho Ht. unfold pipeline.
  rewrite (bind_ok _ _ w (shown w evs) t).
  2:{ rewrite call_stt_api_outcome. by rewrite Ho. }
  rewrite Ht. simpl. unfold emit. simpl. by rewrite <- app_assoc.
Qed.


(** The second stage gave nothing. *)
Lemma pipeline_no_reply p w t evs1 r evs2 :
  stt_outcome ep key E (fs w !! p) = (Ok t, evs1) →
  truthy t = true →
  llm_outcome ep key E t = (Ok r, evs2) →
  truthy r = false →
  pipeline ep key E p w =
    (Ok (), shown w (evs1 ++ [StMarkdown "**You said:**"; StInfo t] ++ evs2
                     ++ [StError (empty_result_msg Generate)])).
Proof.
  intros Ho1 Ht Ho2 Hr. unfold pipeline.
  rewrite (bind_ok _ _ w (shown w evs1) t).
  2:{ rewrite call_stt_api_outcome. by rewrite Ho1. }
  rewrite Ht. cbn [negb]. rewrite !bind_emit, !shown_shown.
  rewrite (bind_ok _ _ _ (shown w ((evs1 ++ [StMarkdown "**You said:**"] ++ [StInfo t]) ++ evs2)) r).
  2:{ rewrite call_llm_api_outcome, Ho2. cbn [fst snd]. by rewrite shown_shown. }
  rewrite Hr. cbn [negb]. unfold emit, shown. simpl.
  by rewrite <- !app_assoc.
Qed.

End HandlerFacts.

Section PipelineFacts.

Variables (ep key : string) (E : env).

(** The three stages gave their results: the audio is played. *)
Lemma pipeline_done p w t evs1 r evs2 evs3 c :
  stt_outcome ep key E (fs w !! p) = (Ok t, evs1) →
  truthy t = true →
  llm_outcome ep key E t = (Ok r, evs2) →
  truthy r = true →
  tts_outcome ep key E r (tmp_name (tmp_count w) ".mp3")
    = (Ok (Some (tmp_name (tmp_count w) ".mp3")), evs3) →
  tts_written ep key E r = Some c →
  pipeline ep key E p w =
    (Ok (),
     World (<[tmp_name (tmp_count w) ".mp3" := c]>
              (<[tmp_name (tmp_count w) ".mp3" := []]> (fs w)))
           (S (tmp_count w))
           (trace w ++ evs1 ++ [StMarkdown "**You said:**"; StInfo t] ++ evs2
              ++ [StMarkdown "**AI reply:**"; StSuccess r] ++ evs3
              ++ [StAudio (tmp_name (tmp_count w) ".mp3"); StBalloons])).
Proof.
  intros Ho1 Ht Ho2 Hr Ho3 Hc. unfold pipeline.
  rewrite (bind_ok _ _ w (shown w evs1) t).
  2:{ rewrite call_stt_api_outcome. by rewrite Ho1. }
  rewrite Ht. cbn [negb]. rewrite !bind_emit, !shown_shown.
  rewrite (bind_ok _ _ _ (shown w ((evs1 ++ [StMarkdown "**You said:**"] ++ [StInfo t]) ++ evs2)) r).
  2:{ rewrite call_llm_api_outcome, Ho2. cbn [fst snd]. by rewrite shown_shown. }
  rewrite Hr. cbn [negb]. rewrite !bind_emit, !shown_shown.
  unfold mbind, M_bind at 1, named_temporary_file. cbn [shown fs tmp_count trace].
  unfold M_bind. rewrite call_tts_api_outcome, Ho3, Hc. cbn [fst snd fs tmp_count trace].
  rewrite tmp_name_truthy. unfold emit. cbn [fs tmp_count trace].
  by rewrite <- !app_assoc.
Qed.

End PipelineFacts.

(** ** The claims about whole runs *)

(** C1. With the stages configured, when the three calls are answered with
    status 200 and the first two answers hold a non-empty transcript and
    reply, the handler ends without an exception in [Done]: it shows the
    transcript and the reply, hands the output file to [st.audio], and that
    file holds exactly the body of the answer to the third call. *)
Theorem successful_run_plays_response_body
    ep key E uf w resp1 data1 t resp2 data2 r resp3 :
  (∀ s, stage_configured ep key E s = true) →
  http E (stt_request (endpoint_value ep E Transcribe) (key_value key E Transcribe)
                      (uf_data uf)) = Ok resp1 →
  status_code resp1 = 200%Z →
  json resp1 = Some data1 →
  stt_extract data1 = Ok t →
  truthy t = true →
  http E (llm_request (endpoint_value ep E Generate) (key_value key E Generate) t)
    = Ok resp2 →
  status_code resp2 = 200%Z →
  json resp2 = Some data2 →
  llm_extract data2 = Ok r →
  truthy r = true →
  http E (tts_request E (endpoint_value ep E Synthesize) (key_value key E Synthesize) r)
    = Ok resp3 →
  status_code resp3 = 200%Z →
  let run := process_audio ep key E (Some uf) w in
  let evs := events_of (process_audio ep key E (Some uf)) w in
  fst run = Ok ()
  ∧ evs =
      [StInfo (PStr (sending_msg Transcribe));
       HttpPost Transcribe
         (stt_request (endpoint_value ep E Transcribe) (key_value key E Transcribe)
                      (uf_data uf));
       StMarkdown "**You said:**"; StInfo t;
       StInfo (PStr (sending_msg Generate));
       HttpPost Generate
         (llm_request (endpoint_value ep E Generate) (key_value key E Generate) t);
       StMarkdown "**AI reply:**"; StSuccess r;
       StInfo (PStr (sending_msg Synthesize));
       HttpPost Synthesize
         (tts_request E (endpoint_value ep E Synthesize) (key_value key E Synthesize) r);
       StAudio (output_path w); StBalloons]
  ∧ final_state (fst run) evs = Done
  ∧ fs (snd run) !! output_path w = Some (content resp3).
Proof.
  intros Hcfg Hh1 Hs1 Hj1 Hx1 Ht Hh2 Hs2 Hj2 Hx2 Hr Hh3 Hs3 run evs.
  assert (Hc : ∀ s, config_missing ep key E s = false).
  { intros s. specialize (Hcfg s). unfold stage_configured in Hcfg.
    by destruct (config_missing ep key E s). }
  assert (Hrun : run = _) by
    (unfold run; rewrite process_audio_some;
     eapply (pipeline_done ep key E _ _ t _ r _ _ (content resp3));
     [ rewrite after_upload_file; unfold stt_outcome;
       rewrite (stage_outcome_200 ep key E _ _ _ _ resp1) by auto;
       unfold parse_json; rewrite Hj1, Hx1; reflexivity
     | exact Ht
     | unfold llm_outcome;
       rewrite (stage_outcome_200 ep key E _ _ _ _ resp2) by auto;
       unfold parse_json; rewrite Hj2, Hx2; reflexivity
     | exact Hr
     | unfold tts_outcome;
       rewrite (stage_outcome_200 ep key E _ _ _ _ resp3) by auto; reflexivity
     | by apply tts_written_200 ]).
  assert (Hevs : evs = _) by
    (unfold evs; eapply events_of_shown; [exact Hrun | reflexivity]).
  rewrite Hevs, Hrun. cbn [fst snd fs].
  split; [done|]. split; [done|]. split; [done|].
  unfold output_path. apply lookup_insert_eq.
Qed.

(** A run of the sample deployment: every hypothesis of C1 holds there. *)
Lemma successful_run_sample :
  fst (process_audio sample_ep sample_key sample_env (Some sample_upload) sample_world)
    = Ok ()
  ∧ final_state
      (fst (process_audio sample_ep sample_key sample_env (Some sample_upload)
                          sample_world))
      (events_of (process_audio sample_ep sample_key sample_env (Some sample_upload))
                 sample_world) = Done
  ∧ fs (snd (process_audio sample_ep sample_key sample_env (Some sample_upload)
                           sample_world)) !! output_path sample_world
    = Some sample_audio.
Proof.
  pose proof (successful_run_plays_response_body
    sample_ep sample_key sample_env sample_upload sample_world
    sample_stt_response (PDict {["transcript" := PStr "hello"]}) (PStr "hello")
    sample_llm_response
    (PDict {["choices" :=
       PList [PDict {["message" := PDict {["content" := PStr "hi there"]}]}]]})
    (PStr "hi there") sample_tts_response) as H.
  cbv zeta in H.
  destruct H as (H1 & _ & H3 & H4);
    [ by intros [] | reflexivity | reflexivity | reflexivity | reflexivity
    | reflexivity | reflexivity | reflexivity | reflexivity | reflexivity
    | reflexivity | reflexivity | reflexivity | ].
  exact (conj H1 (conj H3 H4)).
Defined.

Ltac not_in_events :=
  unfold invoked;
  let H := fresh in
  intros H;
  repeat (apply elem_of_cons in H as [H|H]; [discriminate H|]);
  by apply elem_of_nil in H.

(** C3. When the first call is answered with a status other than 200 (500
    for one), the run sends that one request and no other, shows the remote
    error, ends in [Aborted], and calls neither of the later stages. *)
Theorem transcribe_error_status_aborts ep key E uf w resp :
  stage_configured ep key E Transcribe = true →
  http E (stt_request (endpoint_value ep E Transcribe) (key_value key E Transcribe)
                      (uf_data uf)) = Ok resp →
  status_code resp ≠ 200%Z →
  let run := process_audio ep key E (Some uf) w in
  let evs := events_of (process_audio ep key E (Some uf)) w in
  fst run = Ok ()
  ∧ evs =
      [StInfo (PStr (sending_msg Transcribe));
       HttpPost Transcribe
         (stt_request (endpoint_value ep E Transcribe) (key_value key E Transcribe)
                      (uf_data uf));
       StError (remote_error_msg Transcribe resp);
       StError (empty_result_msg Transcribe)]
  ∧ length (filter (λ e, is_http e = true) evs) = 1
  ∧ final_state (fst run) evs = Aborted
  ∧ ¬ invoked Generate evs
  ∧ ¬ invoked Synthesize evs.
Proof.
  intros Hcfg Hh Hs run evs.
  assert (Hc : config_missing ep key E Transcribe = false).
  { unfold stage_configured in Hcfg. by destruct (config_missing _ _ _ _). }
  assert (Hrun : run = _) by
    (unfold run; rewrite process_audio_some;
     eapply (pipeline_no_transcript ep key E _ _ (PStr ""));
     [ rewrite after_upload_file; unfold stt_outcome;
       by rewrite (stage_outcome_status ep key E _ _ _ _ resp)
     | reflexivity ]).
  assert (Hevs : evs = _) by
    (unfold evs; eapply events_of_shown; [exact Hrun | reflexivity]).
  rewrite Hevs, Hrun. cbn [fst snd app].
  repeat split; try done; not_in_events.
Qed.

(** The sample deployment with an endpoint that answers 500. *)
Lemma transcribe_error_status_sample :
  length (filter (λ e, is_http e = true)
            (events_of (process_audio sample_ep sample_key
                          (env_answering (λ _, Ok (Response 500 "boom" [] None)))
                          (Some sample_upload))
                       sample_world)) = 1
  ∧ final_state
      (fst (process_audio sample_ep sample_key
              (env_answering (λ _, Ok (Response 500 "boom" [] None)))
              (Some sample_upload) sample_world))
      (events_of (process_audio sample_ep sample_key
                    (env_answering (λ _, Ok (Response 500 "boom" [] None)))
                    (Some sample_upload))
                 sample_world) = Aborted.
Proof.
  pose proof (transcribe_error_status_aborts sample_ep sample_key
    (env_answering (λ _, Ok (Response 500 "boom" [] None)))
    sample_upload sample_world (Response 500 "boom" [] None)) as H.
  cbv zeta in H.
  destruct H as (_ & _ & H3 & H4 & _); [reflexivity | reflexivity | discriminate |].
  exact (conj H3 H4).
Defined.

(** C6. When the first call is answered with status 200 and a JSON object in
    which each of [text], [transcript] and [result] is absent or empty, the
    run shows "No transcription returned." and nothing else as an error: no
    remote-call or configuration line. It ends in [Aborted] without calling
    the second stage. *)
Theorem empty_transcript_aborts ep key E uf w resp d :
  stage_configured ep key E Transcribe = true →
  http E (stt_request (endpoint_value ep E Transcribe) (key_value key E Transcribe)
                      (uf_data uf)) = Ok resp →
  status_code resp = 200%Z →
  json resp = Some (PDict d) →
  (∀ k, k ∈ stt_fields → field_empty d k) →
  let run := process_audio ep key E (Some uf) w in
  let evs := events_of (process_audio ep key E (Some uf)) w in
  fst run = Ok ()
  ∧ evs =
      [StInfo (PStr (sending_msg Transcribe));
       HttpPost Transcribe
         (stt_request (endpoint_value ep E Transcribe) (key_value key E Transcribe)
                      (uf_data uf));
       StError (empty_result_msg Transcribe)]
  ∧ final_state (fst run) evs = Aborted
  ∧ errors_shown evs = [empty_result_msg Transcribe]
  ∧ (∀ s resp', StError (remote_error_msg s resp') ∉ evs)
  ∧ (∀ s, StError (config_error_msg s) ∉ evs)
  ∧ ¬ invoked Generate evs
  ∧ filter (λ e, is_http_of Generate e = true) evs = [].
Proof.
  intros Hcfg Hh Hs Hj Hd run evs.
  assert (Hc : config_missing ep key E Transcribe = false).
  { unfold stage_configured in Hcfg. by destruct (config_missing _ _ _ _). }
  assert (Hx : stt_extract (PDict d) = Ok (PStr "")).
  { unfold stt_extract, py_get. cbn [mbind result_bind].
    destruct (Hd "text") as [-> | ->]; [set_solver| |];
    (destruct (Hd "transcript") as [-> | ->]; [set_solver| |]);
    (destruct (Hd "result") as [-> | ->]; [set_solver| |]); reflexivity. }
  assert (Hrun : run = _) by
    (unfold run; rewrite process_audio_some;
     eapply (pipeline_no_transcript ep key E _ _ (PStr ""));
     [ rewrite after_upload_file; unfold stt_outcome;
       rewrite (stage_outcome_200 ep key E _ _ _ _ resp) by auto;
       unfold parse_json; rewrite Hj, Hx; reflexivity
     | reflexivity ]).
  assert (Hevs : evs = _) by
    (unfold evs; eapply events_of_shown; [exact Hrun | reflexivity]).
  rewrite Hevs, Hrun. cbn [fst snd app].
  repeat split; try done.
  - intros s resp'. destruct s; not_in_events.
  - intros s. destruct s; not_in_events.
  - not_in_events.
Qed.

(** The sample deployment with an endpoint that answers [{"text": ""}]. *)
Lemma empty_transcript_sample :
  errors_shown
    (events_of (process_audio sample_ep sample_key
                  (env_answering
                     (λ _, Ok (Response 200 "" [] (Some (PDict {["text" := PStr ""]})))))
                  (Some sample_upload))
               sample_world)
  = ["No transcription returned."].
Proof.
  pose proof (empty_transcript_aborts sample_ep sample_key
    (env_answering (λ _, Ok (Response 200 "" [] (Some (PDict {["text" := PStr ""]})))))
    sample_upload sample_world
    (Response 200 "" [] (Some (PDict {["text" := PStr ""]})))
    {["text" := PStr ""]}) as H.
  cbv zeta in H.
  destruct H as (_ & _ & _ & H4 & _);
    [reflexivity | reflexivity | reflexivity | reflexivity | | exact H4].
  intros k Hk. unfold stt_fields in Hk.
  apply elem_of_cons in Hk as [-> | Hk]; [by right|].
  apply elem_of_cons in Hk as [-> | Hk]; [by left|].
  apply elem_of_cons in Hk as [-> | Hk]; [by left|].
  by apply elem_of_nil in Hk.
Defined.



(** ** The claims about response parsing *)

Lemma flat_extract_rules d :
  flat_extract (PDict d) = Ok (default (PStr "") (first_truthy d flat_fields)).
Proof.
  unfold flat_extract, py_get, py_or, flat_fields. cbn [mbind result_bind first_truthy].
  destruct (d !! "response") as [v|]; cbn [default from_option id].
  - destruct (truthy v); [done|].
    destruct (d !! "text") as [v'|]; cbn [default from_option id]; [by destruct (truthy v')|done].
  - cbn [truthy]. destruct (d !! "text") as [v'|]; cbn [default from_option id];
      [by destruct (truthy v')|done].
Qed.

(** Without a non-empty ["choices"], the flat fields decide. *)
Lemma llm_extract_flat d :
  has_choices (PDict d) = Ok false →
  llm_extract (PDict d) = flat_extract (PDict d).
Proof. intros H. unfold llm_extract. by rewrite H. Qed.

(** C4, as stated, fails: in [{"text": "", "transcript": "hello"}] the
    earliest recognised field that is present is [text], with value [""], and
    the transcript is ["hello"]. *)
Lemma stt_first_present_refuted :
  ¬ (∀ d v, first_present d stt_fields = Some v → stt_extract (PDict d) = Ok v).
Proof.
  intros H.
  specialize (H (<["text" := PStr ""]> {["transcript" := PStr "hello"]}) (PStr "")
                eq_refl).
  vm_compute in H. discriminate H.
Qed.

(** C4, amended. The transcript of a JSON object is the value of the first
    of [text], [transcript], [result], in that order, whose value is truthy
    (non-empty), and the empty string when there is none; so
    [{"transcript": "hello"}] gives ["hello"]. *)
Theorem stt_extract_first_truthy d :
  stt_extract (PDict d) = Ok (default (PStr "") (first_truthy d stt_fields))
  ∧ stt_extract (PDict {["transcript" := PStr "hello"]}) = Ok (PStr "hello").
Proof.
  split; [|reflexivity].
  unfold stt_extract, py_get, py_or, stt_fields.
  cbn [mbind result_bind first_truthy].
  destruct (d !! "text") as [v1|]; cbn [default from_option id truthy];
    [destruct (truthy v1); [done|]|];
    (destruct (d !! "transcript") as [v2|]; cbn [default from_option id truthy];
      [destruct (truthy v2); [done|]|]);
    (destruct (d !! "result") as [v3|]; cbn [default from_option id truthy];
      [by destruct (truthy v3)|done]).
Qed.

(** C5, as stated, fails: in [{"choices": [{}], "response": "ok"}] the
    structured fields give no value, the flat field [response] holds ["ok"],
    and the reply is [""]. *)
Lemma llm_fallback_refuted :
  ¬ (∀ d v, choices_extract (PDict d) = Ok v → truthy v = false →
            llm_extract (PDict d) = flat_extract (PDict d)).
Proof.
  intros H.
  specialize (H (<["choices" := PList [PDict ∅]]> {["response" := PStr "ok"]})
                (PStr "") eq_refl eq_refl).
  vm_compute in H. discriminate H.
Qed.

(** C5, amended. When ["choices"] is absent the reply comes from the flat
    fields, [response] then [text], first truthy value, else [""]. When
    ["choices"] is a list that starts with an object, the reply is that
    object's [text] if truthy, else the [content] of its [message] (or [""]),
    and the flat fields are not consulted, even when that gives nothing. *)
Theorem llm_extract_rules d :
  (d !! "choices" = None →
   llm_extract (PDict d) = Ok (default (PStr "") (first_truthy d flat_fields)))
  ∧ (∀ c cs, d !! "choices" = Some (PList (PDict c :: cs)) →
       llm_extract (PDict d) =
         if truthy (default PNone (c !! "text")) then Ok (default PNone (c !! "text"))
         else py_get (default (PDict ∅) (c !! "message")) "content" (PStr ""))
  ∧ llm_extract
      (PDict {["choices" :=
         PList [PDict {["message" := PDict {["content" := PStr "hi there"]}]}]]})
    = Ok (PStr "hi there")
  ∧ llm_extract (PDict {["response" := PStr "ok"]}) = Ok (PStr "ok").
Proof.
  split; [|split; [|split; reflexivity]].
  - intros H. rewrite llm_extract_flat; [apply flat_extract_rules|].
    unfold has_choices, py_contains. cbn [mbind result_bind]. rewrite H.
    by rewrite bool_decide_eq_false_2 by (by intros [? ?]).
  - intros c cs H. unfold llm_extract, has_choices, py_contains, py_getitem.
    cbn [mbind result_bind]. rewrite H.
    rewrite bool_decide_eq_true_2 by eauto.
    cbn [py_len length mbind result_bind].
    rewrite bool_decide_eq_true_2 by lia.
    unfold choices_extract, py_getitem. rewrite H.
    cbn [mbind result_bind py_index0 py_get].
    by destruct (truthy (default PNone (c !! "text"))).
Qed.

(** The rules of C5 at work on two answers. *)
Lemma llm_extract_rules_sample :
  llm_extract (PDict (<["text" := PStr "flat"]> ∅)) = Ok (PStr "flat")
  ∧ llm_extract (PDict (<["choices" := PList [PDict ∅]]> {["response" := PStr "ok"]}))
    = Ok (PStr "").
Proof.
  split.
  - exact (proj1 (llm_extract_rules (<["text" := PStr "flat"]> ∅)) eq_refl).
  - exact (proj1 (proj2 (llm_extract_rules
             (<["choices" := PList [PDict ∅]]> {["response" := PStr "ok"]})))
             ∅ [] eq_refl).
Defined.

(** C10. An empty list under ["choices"] is treated as an absent key: the
    reply is the one of the object without the key, taken from the flat
    fields. The structured fields are read only when ["choices"] is present
    with a positive length. *)
Theorem llm_empty_choices_as_absent d :
  d !! "choices" = Some (PList []) →
  llm_extract (PDict d) = llm_extract (PDict (delete "choices" d))
  ∧ llm_extract (PDict d) = Ok (default (PStr "") (first_truthy d flat_fields))
  ∧ (∀ d', has_choices (PDict d') = Ok true →
       ∃ ch n, d' !! "choices" = Some ch ∧ py_len ch = Ok n ∧ 0 < n).
Proof.
  intros H.
  assert (Hflat : llm_extract (PDict d) = flat_extract (PDict d)).
  { apply llm_extract_flat. unfold has_choices, py_contains, py_getitem.
    cbn [mbind result_bind]. rewrite H.
    by rewrite bool_decide_eq_true_2 by eauto. }
  split; [|split].
  - rewrite Hflat, llm_extract_flat.
    + unfold flat_extract, py_get. by rewrite !lookup_delete_ne by done.
    + unfold has_choices, py_contains. cbn [mbind result_bind].
      rewrite lookup_delete_eq.
      by rewrite bool_decide_eq_false_2 by (by intros [? ?]).
  - rewrite Hflat. apply flat_extract_rules.
  - intros d'. unfold has_choices, py_contains, py_getitem.
    cbn [mbind result_bind].
    destruct (d' !! "choices") as [ch|] eqn:Hch.
    + rewrite bool_decide_eq_true_2 by eauto. cbn [mbind result_bind].
      destruct (py_len ch) as [n|e] eqn:Hn; cbn [mbind result_bind];
        [|intros Hb; discriminate Hb].
      intros Hb. exists ch, n. repeat split; try done.
      injection Hb as Hb. by apply bool_decide_eq_true_1 in Hb.
    + by rewrite bool_decide_eq_false_2 by (by intros [? ?]).
Qed.

(** [{"choices": [], "response": "ok"}] *)
Lemma llm_empty_choices_sample :
  llm_extract (PDict (<["choices" := PList []]> {["response" := PStr "ok"]}))
  = llm_extract (PDict (delete "choices"
                          (<["choices" := PList []]> {["response" := PStr "ok"]}))).
Proof.
  exact (proj1 (llm_empty_choices_as_absent
                  (<["choices" := PList []]> {["response" := PStr "ok"]}) eq_refl)).
Defined.

(** ** The claims about the page *)

Lemma read_diagnostic_loaded E table :
  secrets E = Ok table → read_diagnostic E = Ok (diagnostic E).
Proof.
  intros H. unfold read_diagnostic, diagnostic, secrets_get, secret_value.
  by rewrite H.
Qed.

Lemma read_diagnostic_unloaded E e :
  secrets E = Raise e → read_diagnostic E = Raise e.
Proof. intros H. unfold read_diagnostic, secrets_get. by rewrite H. Qed.

(** The check box, at the end of the script. *)
Lemma show_diagnostic_outcome (E : env) (show : bool) (w : world) :
  ((if show then report ← lift (read_diagnostic E); emit (StWrite report)
    else mret ()) : M unit) w
  = (fst (diagnostic_outcome E show), shown w (snd (diagnostic_outcome E show))).
Proof.
  unfold diagnostic_outcome, shown. destruct show.
  - destruct (secrets E) as [table|e] eqn:Hl.
    + unfold mbind, M_bind, lift. by rewrite (read_diagnostic_loaded E table Hl).
    + unfold mbind, M_bind, lift. rewrite (read_diagnostic_unloaded E e Hl).
      cbn [fst snd]. by rewrite app_nil_r; destruct w.
  - cbn [fst snd]. unfold mret, M_ret. by rewrite app_nil_r; destruct w.
Qed.

Lemma app_no_upload ep key E rec show w :
  app ep key E (UiInput rec None true show) w =
    (fst (diagnostic_outcome E show),
     shown w ([StTitle "🎤 Voice → AI → Voice (Streamlit)"; StRecorder;
               StInfo (PStr recorder_hint_msg); StWarning no_audio_msg]
              ++ snd (diagnostic_outcome E show))).
Proof.
  unfold app. cbn [process_clicked uploaded_file show_apis].
  rewrite !bind_emit, !shown_shown.
  rewrite (bind_ok _ _ _ _ _ (process_audio_none ep key E _)).
  rewrite show_diagnostic_outcome, !shown_shown. by rewrite <- !app_assoc.
Qed.

(** C9. Pressing the button without an uploaded file shows the warning and
    nothing else happens: no stage is called, no request is sent, no file is
    written, and the handler ends in [Idle]. The page then goes on to the
    check box, which alone decides how the run of the page ends. Whatever the
    recorder posted plays no part in a run of the page. *)
Theorem no_upload_no_pipeline ep key E rec show w :
  let run := app ep key E (UiInput rec None true show) w in
  let evs := events_of (app ep key E (UiInput rec None true show)) w in
  process_audio ep key E None w = (Ok (), shown w [StWarning no_audio_msg])
  ∧ final_state (fst (process_audio ep key E None w))
                (events_of (process_audio ep key E None) w) = Idle
  ∧ fst run = (if show then
                 match secrets E with
                 | Ok _ => Ok ()
                 | Raise e => Raise e
                 end
               else Ok ())
  ∧ StWarning no_audio_msg ∈ evs
  ∧ filter (λ e, is_http e = true) evs = []
  ∧ (∀ s, ¬ invoked s evs)
  ∧ fs (snd run) = fs w
  ∧ tmp_count (snd run) = tmp_count w
  ∧ (∀ i rec' w',
       app ep key E (UiInput rec' (uploaded_file i) (process_clicked i) (show_apis i)) w'
       = app ep key E i w').
Proof.
  intros run evs.
  assert (Hevs : evs = _) by
    (unfold evs; eapply events_of_shown; [apply app_no_upload | reflexivity]).
  unfold run. rewrite Hevs, app_no_upload.
  rewrite (events_of_shown _ _ _ _ _ (process_audio_none ep key E w) eq_refl).
  unfold diagnostic_outcome. cbn [fst snd shown fs tmp_count].
  repeat split; try done.
  - by destruct show, (secrets E).
  - do 3 right. left.
  - by destruct show, (secrets E).
  - intros s. destruct s, show, (secrets E); not_in_events.
Qed.

(** The stages' tests cannot tell the stages apart, the diagnostic can:
    whatever the two names the stages look up, with the secrets
    [{"STT_ENDPOINT": "https://stt.example"}] the diagnostic shows [True] for
    the first stage and [False] for the second, while the tests of the two
    stages agree. *)
Lemma diagnostic_not_stage_test :
  ¬ (∃ ep key, ∀ E s, diag_reports E s = stage_configured ep key E s).
Proof.
  intros (ep & key & H).
  pose (E0 := Env (Ok {["STT_ENDPOINT" := PStr "https://stt.example"]})
                  (λ _, Raise RequestException) (λ _, "")).
  pose proof (H E0 Transcribe) as H1.
  pose proof (H E0 Generate) as H2.
  unfold stage_configured in H1, H2.
  rewrite (config_missing_shared ep key E0 Generate Transcribe) in H2.
  rewrite <- H1 in H2. vm_compute in H2. discriminate H2.
Qed.

(** C8 (the code departs from the claim). With a [secrets.toml] that holds
    an endpoint and a key for each stage under the names the diagnostic and
    the error lines use, the diagnostic shows [True] for every stage, and yet
    no stage passes its own test: the stage functions look their entries up
    under two other names, so that a run with an upload stops at the first
    stage with "STT endpoint/key not configured". This holds as soon as one of
    the two names the stages look up is not among the six names of the
    table. *)
Theorem diagnostic_true_for_unconfigured_stages ep key s :
  natural_secrets !! ep = None ∨ natural_secrets !! key = None →
  diag_reports natural_env s = true
  ∧ stage_configured ep key natural_env s = false
  ∧ events_of (app ep key natural_env (UiInput None None false true)) sample_world
    = [StTitle "🎤 Voice → AI → Voice (Streamlit)"; StRecorder;
       StInfo (PStr recorder_hint_msg);
       StWrite [("STT_ENDPOINT", true); ("LLM_ENDPOINT", true);
                ("TTS_ENDPOINT", true)]]
  ∧ events_of (process_audio ep key natural_env (Some sample_upload)) sample_world
    = [StInfo (PStr (sending_msg Transcribe));
       StError (config_error_msg Transcribe);
       StError (empty_result_msg Transcribe)].
Proof.
  intros Habs.
  assert (Hc : ∀ s', config_missing ep key natural_env s' = true).
  { intros s'. apply absent_config_missing.
    destruct s'; cbn [endpoint_name key_name secrets natural_env];
      by rewrite !lookup_loaded. }
  split; [by destruct s|]. split; [unfold stage_configured; by rewrite Hc|]. split.
  - eapply (events_of_shown _ _ (Ok ())); [reflexivity|].
    cbn [snd trace]. reflexivity.
  - eassert (Hrun : process_audio ep key natural_env (Some sample_upload) sample_world
                    = (Ok (), _)).
    { rewrite process_audio_some.
      eapply (pipeline_no_transcript ep key natural_env _ _ (PStr "")); [|reflexivity].
      unfold stt_outcome.
      by rewrite (stage_outcome_missing ep key natural_env _ _ _ _ natural_secrets
                    eq_refl (Hc _)). }
    by rewrite (events_of_shown _ _ _ _ _ Hrun eq_refl).
Qed.

(** The names of the sample deployment are not in that table either. *)
Lemma diagnostic_true_sample :
  diag_reports natural_env Generate = true
  ∧ stage_configured sample_ep sample_key natural_env Generate = false.
Proof.
  destruct (diagnostic_true_for_unconfigured_stages sample_ep sample_key Generate)
    as (H1 & H2 & _); [left; reflexivity|].
  exact (conj H1 H2).
Defined.

(** ** Determinism of the stages *)

Section Determinism.

Variables (ep key : string) (E1 E2 : env).
Hypothesis same_secrets : secrets E1 = secrets E2.
Hypothesis same_answers : ∀ req, http E1 req = http E2 req.

Lemma secrets_get_same k dflt : secrets_get E1 k dflt = secrets_get E2 k dflt.
Proof. unfold secrets_get. by rewrite same_secrets. Qed.

Lemma secret_value_same k dflt : secret_value E1 k dflt = secret_value E2 k dflt.
Proof. unfold secret_value. by rewrite same_secrets. Qed.

Lemma config_missing_same s : config_missing ep key E1 s = config_missing ep key E2 s.
Proof. unfold config_missing. by rewrite !secret_value_same. Qed.

Lemma stage_outcome_same {A} s (failed : A) req parse :
  stage_outcome ep key E1 s failed req parse
  = stage_outcome ep key E2 s failed req parse.
Proof.
  unfold stage_outcome, after_request.
  rewrite config_missing_same, same_secrets. destruct req as [req|e]; [|done].
  by rewrite same_answers.
Qed.

Lemma stt_outcome_same file : stt_outcome ep key E1 file = stt_outcome ep key E2 file.
Proof.
  unfold stt_outcome, endpoint_value, key_value.
  by rewrite stage_outcome_same, !secret_value_same.
Qed.

Lemma llm_outcome_same t : llm_outcome ep key E1 t = llm_outcome ep key E2 t.
Proof.
  unfold llm_outcome, endpoint_value, key_value.
  by rewrite stage_outcome_same, !secret_value_same.
Qed.

Lemma tts_request_same u k r : tts_request E1 u k r = tts_request E2 u k r.
Proof. unfold tts_request. by rewrite secret_value_same. Qed.

Lemma tts_outcome_same r out :
  tts_outcome ep key E1 r out = tts_outcome ep key E2 r out.
Proof.
  unfold tts_outcome, endpoint_value, key_value.
  by rewrite stage_outcome_same, tts_request_same, !secret_value_same.
Qed.

Lemma tts_written_same r : tts_written ep key E1 r = tts_written ep key E2 r.
Proof.
  unfold tts_written, endpoint_value, key_value.
  by rewrite config_missing_same, tts_request_same, !secret_value_same, same_answers.
Qed.

End Determinism.

(** [call_tts_api] returns the path only after it has written the file. *)
Lemma tts_success_written ep key E r out :
  fst (tts_outcome ep key E r out) = Ok (Some out) →
  ∃ c, tts_written ep key E r = Some c.
Proof.
  unfold tts_outcome, tts_written, stage_outcome, after_request.
  destruct (secrets E) as [table|e0]; [|done].
  destruct (config_missing ep key E Synthesize); [done|].
  destruct (http E _) as [resp|e]; [|done].
  destruct (status_code resp =? 200)%Z; cbn [negb fst]; [eauto|done].
Qed.

(** C7. Two calls of a stage function with the same input, under the same
    secrets and an endpoint that answers alike, give the same result and show
    the same events, from whatever worlds they start (for the first stage the
    input is the file read, for the third the file written is the same too). *)
Theorem stages_deterministic ep key E1 E2 :
  secrets E1 = secrets E2 →
  (∀ req, http E1 req = http E2 req) →
  (∀ p w1 w2, fs w1 !! p = fs w2 !! p →
     fst (call_stt_api ep key E1 p w1) = fst (call_stt_api ep key E2 p w2)
     ∧ events_of (call_stt_api ep key E1 p) w1
       = events_of (call_stt_api ep key E2 p) w2)
  ∧ (∀ t w1 w2,
       fst (call_llm_api ep key E1 t w1) = fst (call_llm_api ep key E2 t w2)
       ∧ events_of (call_llm_api ep key E1 t) w1
         = events_of (call_llm_api ep key E2 t) w2)
  ∧ (∀ r out w1 w2,
       fst (call_tts_api ep key E1 r out w1) = fst (call_tts_api ep key E2 r out w2)
       ∧ events_of (call_tts_api ep key E1 r out) w1
         = events_of (call_tts_api ep key E2 r out) w2
       ∧ (fst (call_tts_api ep key E1 r out w1) = Ok (Some out) →
          fs (snd (call_tts_api ep key E1 r out w1)) !! out
          = fs (snd (call_tts_api ep key E2 r out w2)) !! out)).
Proof.
  intros Hs Hh. split; [|split].
  - intros p w1 w2 Hf.
    rewrite (events_of_shown _ _ _ _ _ (call_stt_api_outcome ep key E1 p w1) eq_refl).
    rewrite (events_of_shown _ _ _ _ _ (call_stt_api_outcome ep key E2 p w2) eq_refl).
    rewrite !call_stt_api_outcome. cbn [fst].
    by rewrite Hf, (stt_outcome_same ep key E1 E2 Hs Hh).
  - intros t w1 w2.
    rewrite (events_of_shown _ _ _ _ _ (call_llm_api_outcome ep key E1 t w1) eq_refl).
    rewrite (events_of_shown _ _ _ _ _ (call_llm_api_outcome ep key E2 t w2) eq_refl).
    rewrite !call_llm_api_outcome. cbn [fst].
    by rewrite (llm_outcome_same ep key E1 E2 Hs Hh).
  - intros r out w1 w2.
    rewrite (events_of_shown _ _ _ _ _ (call_tts_api_outcome ep key E1 r out w1) eq_refl).
    rewrite (events_of_shown _ _ _ _ _ (call_tts_api_outcome ep key E2 r out w2) eq_refl).
    rewrite !call_tts_api_outcome. cbn [fst snd fs].
    rewrite (tts_outcome_same ep key E1 E2 Hs Hh),
            (tts_written_same ep key E1 E2 Hs Hh).
    repeat split; try done.
    intros Hok. apply tts_success_written in Hok as [c ->].
    by rewrite !lookup_insert_eq.
Qed.

(** The sample deployment against a copy of it with another suffix rule,
    started in two different worlds. *)
Lemma stages_deterministic_sample :
  fst (call_llm_api sample_ep sample_key sample_env (PStr "hello") sample_world)
  = fst (call_llm_api sample_ep sample_key
           (Env (Ok sample_secrets) sample_http (λ _, ".ogg")) (PStr "hello")
           (World {["/tmp/other" := sample_audio]} 7 [StBalloons])).
Proof.
  exact (proj1 (proj1 (proj2 (stages_deterministic sample_ep sample_key sample_env
           (Env (Ok sample_secrets) sample_http (λ _, ".ogg")) eq_refl (λ _, eq_refl)))
         (PStr "hello") sample_world
         (World {["/tmp/other" := sample_audio]} 7 [StBalloons]))).
Defined.

(** * Further properties of the script *)

(** ** Every run of the handler, case by case *)

Section RunFacts.

Variables (ep key : string) (E : env).

Lemma pipeline_as_function p w :
  pipeline ep key E p w =
    (fst (pipeline_events ep key E (fs w !! p) (tmp_name (tmp_count w) ".mp3")),
     World (pipeline_files ep key E (fs w !! p) (tmp_name (tmp_count w) ".mp3") (fs w))
           (pipeline_count ep key E (fs w !! p) (tmp_count w))
           (trace w ++ snd (pipeline_events ep key E (fs w !! p)
                              (tmp_name (tmp_count w) ".mp3")))).
Proof.
  unfold pipeline, pipeline_events, pipeline_files, pipeline_count, reply_reached.
  pose proof (call_stt_api_outcome ep key E p w) as H1.
  destruct (stt_outcome ep key E (fs w !! p)) as [[t|e] evs1]; cbn [fst snd] in *.
  2:{ by rewrite (bind_raise _ _ _ _ _ H1). }
  rewrite (bind_ok _ _ _ _ _ H1).
  destruct (truthy t); cbn [negb].
  2:{ unfold emit, shown. cbn [fs tmp_count trace]. by rewrite <- app_assoc. }
  rewrite !bind_emit, !shown_shown.
  pose proof (call_llm_api_outcome ep key E t
                (shown w (evs1 ++ [StMarkdown "**You said:**"] ++ [StInfo t]))) as H2.
  destruct (llm_outcome ep key E t) as [[r|e] evs2]; cbn [fst snd] in *.
  2:{ rewrite (bind_raise _ _ _ _ _ H2). unfold shown. cbn [fs tmp_count trace].
      by rewrite <- !app_assoc. }
  rewrite (bind_ok _ _ _ _ _ H2).
  destruct (truthy r); cbn [negb].
  2:{ unfold emit, shown. cbn [fs tmp_count trace]. by rewrite <- !app_assoc. }
  rewrite !bind_emit, !shown_shown.
  unfold mbind, M_bind at 1, named_temporary_file. cbn [shown fs tmp_count trace].
  unfold M_bind. rewrite call_tts_api_outcome.
  destruct (tts_outcome ep key E r _) as [[[q|]|e] evs3]; cbn [fst snd fs tmp_count trace].
  - unfold playback_events. destruct (path_truthy (Some q)).
    + unfold emit. cbn [fs tmp_count trace]. by rewrite <- !app_assoc.
    + unfold emit. cbn [fs tmp_count trace]. by rewrite <- !app_assoc.
  - unfold playback_events, emit. cbn [path_truthy fs tmp_count trace].
    by rewrite <- !app_assoc.
  - unfold playback_events. by rewrite <- !app_assoc, app_nil_r.
Qed.

Lemma process_audio_as_function o w :
  process_audio ep key E o w =
    (fst (handler_events ep key E o w),
     World (handler_files ep key E o w) (handler_count ep key E o w)
           (trace w ++ snd (handler_events ep key E o w))).
Proof.
  destruct o as [uf|]; [|apply process_audio_none].
  rewrite process_audio_some, pipeline_as_function.
  by rewrite after_upload_file.
Qed.

Lemma process_audio_events o w :
  events_of (process_audio ep key E o) w = snd (handler_events ep key E o w).
Proof.
  eapply events_of_shown; [apply process_audio_as_function|reflexivity].
Qed.

End RunFacts.

(** ** The shapes a stage call can take *)

Section Shapes.

Variables (ep key : string) (E : env).

Lemma stage_outcome_cases {A} s (failed : A) rq parse :
  (∃ e, secrets E = Raise e
        ∧ stage_outcome ep key E s failed (Ok rq) parse
          = (Raise e, [StInfo (PStr (sending_msg s))]))
  ∨ ∃ table, secrets E = Ok table ∧
  ((config_missing ep key E s = true
    ∧ stage_outcome ep key E s failed (Ok rq) parse
      = (Ok failed, [StInfo (PStr (sending_msg s)); StError (config_error_msg s)]))
   ∨ (config_missing ep key E s = false
      ∧ ∃ e, http E rq = Raise e
             ∧ stage_outcome ep key E s failed (Ok rq) parse
               = (Raise e, [StInfo (PStr (sending_msg s)); HttpPost s rq]))
   ∨ (config_missing ep key E s = false
      ∧ ∃ resp, http E rq = Ok resp ∧ status_code resp ≠ 200%Z
                ∧ stage_outcome ep key E s failed (Ok rq) parse
                  = (Ok failed, [StInfo (PStr (sending_msg s)); HttpPost s rq;
                                 StError (remote_error_msg s resp)]))
   ∨ (config_missing ep key E s = false
      ∧ ∃ resp, http E rq = Ok resp ∧ status_code resp = 200%Z
                ∧ stage_outcome ep key E s failed (Ok rq) parse
                  = (parse resp, [StInfo (PStr (sending_msg s)); HttpPost s rq]))).
Proof.
  unfold stage_outcome, after_request.
  destruct (secrets E) as [table|e0]; [right; exists table; split; [done|]|left; eauto].
  destruct (config_missing ep key E s); [by left|right].
  destruct (http E rq) as [resp|e]; [right|left; eauto].
  destruct (status_code resp =? 200)%Z eqn:Hs; cbn [negb].
  - right. split; [done|]. exists resp. by apply Z.eqb_eq in Hs.
  - left. split; [done|]. exists resp. by apply Z.eqb_neq in Hs.
Qed.

(** The result of a stage differs from its failure value only after an
    answer with status 200. *)
Lemma stage_outcome_success {A} s (failed : A) rq parse v evs :
  stage_outcome ep key E s failed (Ok rq) parse = (Ok v, evs) →
  v ≠ failed →
  config_missing ep key E s = false
  ∧ evs = [StInfo (PStr (sending_msg s)); HttpPost s rq]
  ∧ ∃ resp, http E rq = Ok resp ∧ status_code resp = 200%Z ∧ parse resp = Ok v.
Proof.
  intros Ho Hv.
  destruct (stage_outcome_cases s failed rq parse)
    as [(e0 & Hl & H)
       |(table & Hl & [[Hc H]|[(Hc & e & Hh & H)
                      |[(Hc & resp & Hh & Hs & H)|(Hc & resp & Hh & Hs & H)]]])];
    rewrite H in Ho; injection Ho as Ho1 Ho2; try congruence.
  split; [done|]. split; [done|]. eauto.
Qed.

Lemma truthy_not_empty v : truthy v = true → v ≠ PStr "".
Proof. by intros H ->. Qed.

End Shapes.

(** The page, from the handler. *)
Lemma app_as_function ep key E i w :
  let h := if process_clicked i then handler_events ep key E (uploaded_file i) w
           else (Ok (), []) in
  let d := diagnostic_outcome E (show_apis i) in
  let evs := [StTitle "🎤 Voice → AI → Voice (Streamlit)"; StRecorder;
              StInfo (PStr recorder_hint_msg)]
             ++ snd h
             ++ match fst h with
                | Ok _ => snd d
                | Raise _ => []
                end in
  app ep key E i w =
    (match fst h with Ok _ => fst d | Raise e => Raise e end,
     World (if process_clicked i then handler_files ep key E (uploaded_file i) w
            else fs w)
           (if process_clicked i then handler_count ep key E (uploaded_file i) w
            else tmp_count w)
           (trace w ++ evs)).
Proof.
  cbv zeta. unfold app. rewrite !bind_emit, !shown_shown.
  destruct (process_clicked i).
  - set (w0 := shown w _).
    pose proof (process_audio_as_function ep key E (uploaded_file i) w0) as Hp.
    change (handler_events ep key E (uploaded_file i) w0)
      with (handler_events ep key E (uploaded_file i) w) in Hp.
    change (handler_files ep key E (uploaded_file i) w0)
      with (handler_files ep key E (uploaded_file i) w) in Hp.
    change (handler_count ep key E (uploaded_file i) w0)
      with (handler_count ep key E (uploaded_file i) w) in Hp.
    destruct (handler_events ep key E (uploaded_file i) w) as [[[]|e] evs];
      cbn [fst snd] in *.
    + rewrite (bind_ok _ _ _ _ _ Hp), show_diagnostic_outcome.
      unfold w0, shown. cbn [fs tmp_count trace].
      by rewrite <- ?app_assoc.
    + rewrite (bind_raise _ _ _ _ _ Hp). unfold w0, shown. cbn [fs tmp_count trace].
      by rewrite <- ?app_assoc, ?app_nil_r.
  - unfold mbind, M_bind at 1, mret, M_ret.
    rewrite show_diagnostic_outcome. unfold shown. cbn [fs tmp_count trace fst snd app].
    by rewrite <- ?app_assoc.
Qed.

(** Case analysis of a run: one stage at a time. *)
Ltac run_step :=
  match goal with
  | |- context [stage_outcome ?ep ?key ?E ?s ?f (Ok ?rq) ?parse] =>
      let Hc := fresh "Hc" in
      let Ho := fresh "Ho" in
      let Hl := fresh "Hl" in
      let e := fresh "e" in
      let table := fresh "table" in
      let resp := fresh "resp" in
      let Hh := fresh "Hh" in
      let Hs := fresh "Hs" in
      destruct (stage_outcome_cases ep key E s f rq parse)
        as [(e & Hl & Ho)
           |(table & Hl & [[Hc Ho]|[(Hc & e & Hh & Ho)
                          |[(Hc & resp & Hh & Hs & Ho)|(Hc & resp & Hh & Hs & Ho)]]])];
      rewrite Ho; clear Ho; cbn [fst snd];
      change (truthy (PStr "")) with false; cbn [negb];
      try congruence
  | |- context [parse_json ?x ?resp] =>
      let Hp := fresh "Hp" in
      destruct (parse_json x resp) as [?|?] eqn:Hp; cbn [fst snd]
  | |- context [negb (truthy ?t)] =>
      let Ht := fresh "Ht" in
      destruct (truthy t) eqn:Ht; cbn [negb]
  end.

(** The secrets are loaded, or not, the same at every read of a run. *)
Ltac settle_secrets :=
  unfold diagnostic_outcome;
  repeat match goal with
         | Hl : secrets ?E = _ |- context [secrets ?E] => rewrite Hl
         end;
  cbn [fst snd].

(** The end of the page when the handler did not run a stage. *)
Ltac page_tail :=
  unfold diagnostic_outcome;
  destruct (show_apis _); [destruct (secrets _)|]; cbn [fst snd app].

Ltac run_cases :=
  unfold handler_events, pipeline_events, stt_outcome, llm_outcome, tts_outcome;
  repeat run_step;
  unfold playback_events, output_path; rewrite ?tmp_name_truthy;
  settle_secrets;
  cbn [app fst snd].

(** X1. The requests of a run of the page come in the order of the stages:
    first stage, then second, then third, each at most once, and none without
    the ones before it. *)
Theorem requests_follow_stage_order ep key E i w :
  http_stages (events_of (app ep key E i) w)
    `prefix_of` [Transcribe; Generate; Synthesize].
Proof.
  rewrite (events_of_shown _ _ _ _ _ (app_as_function ep key E i w) eq_refl).
  destruct (process_clicked i); [|page_tail; by eexists].
  destruct (uploaded_file i) as [uf|];
    [|cbn [handler_events fst snd]; page_tail; by eexists].
  run_cases; destruct (show_apis i); cbn [fst snd app]; by eexists.
Qed.

Ltac among := repeat (first [by left | right]).

Ltac not_among H :=
  repeat (apply elem_of_cons in H as [H|H]; [discriminate H|]);
  by apply elem_of_nil in H.



(** X3. The audio is played only after a full success: if a run shows
    [st.audio], then a file was uploaded, the three calls were answered with
    status 200, the transcript and the reply parsed from the first two answers
    were truthy, the path played is the output file of the run, and that file
    holds the body of the third answer. *)
Theorem playback_only_after_full_success ep key E o w p :
  StAudio p ∈ events_of (process_audio ep key E o) w →
  ∃ uf t r resp1 resp2 resp3,
    o = Some uf ∧ p = output_path w
    ∧ http E (stt_request (endpoint_value ep E Transcribe) (key_value key E Transcribe)
                          (uf_data uf)) = Ok resp1
    ∧ status_code resp1 = 200%Z
    ∧ parse_json stt_extract resp1 = Ok t ∧ truthy t = true
    ∧ http E (llm_request (endpoint_value ep E Generate) (key_value key E Generate) t)
      = Ok resp2
    ∧ status_code resp2 = 200%Z
    ∧ parse_json llm_extract resp2 = Ok r ∧ truthy r = true
    ∧ http E (tts_request E (endpoint_value ep E Synthesize)
                          (key_value key E Synthesize) r) = Ok resp3
    ∧ status_code resp3 = 200%Z
    ∧ fst (process_audio ep key E o w) = Ok ()
    ∧ fs (snd (process_audio ep key E o w)) !! p = Some (content resp3).
Proof.
  rewrite process_audio_events. destruct o as [uf|].
  2:{ cbn [handler_events snd]. intros H. not_among H. }
  run_cases; intros H; try (exfalso; not_among H).
  repeat (apply elem_of_cons in H as [H|H]; [try discriminate H|]);
    [|by apply elem_of_nil in H].
  injection H as ->.
  match goal with
  | H1 : http E (stt_request _ _ _) = Ok ?r1, H2 : http E (llm_request _ _ ?t) = Ok ?r2,
    H3 : http E (tts_request _ _ _ ?r) = Ok ?r3 |- _ =>
      exists uf, t, r, r1, r2, r3
  end.
  repeat (split; [done|]).
  assert (Hrun : process_audio ep key E (Some uf) w = _) by
    (rewrite process_audio_some;
     eapply (pipeline_done ep key E _ _ _ _ _ _ _ (content resp1));
     [ rewrite after_upload_file; unfold stt_outcome;
       erewrite stage_outcome_200 by eassumption; rewrite Hp; reflexivity
     | assumption
     | unfold llm_outcome; erewrite stage_outcome_200 by eassumption;
       rewrite Hp0; reflexivity
     | assumption
     | unfold tts_outcome; erewrite stage_outcome_200 by eassumption; reflexivity
     | by eapply tts_written_200 ]).
  rewrite Hrun. cbn [fst snd fs]. split; [done|]. apply lookup_insert_eq.
Qed.

(** The run of the sample deployment plays its output file. *)
Lemma playback_sample :
  ∃ resp3,
    status_code resp3 = 200%Z
    ∧ fs (snd (process_audio sample_ep sample_key sample_env (Some sample_upload)
                             sample_world)) !! output_path sample_world
      = Some (content resp3).
Proof.
  destruct (playback_only_after_full_success sample_ep sample_key sample_env
              (Some sample_upload) sample_world (output_path sample_world))
    as (uf & t & r & resp1 & resp2 & resp3 & _ & _ & _ & _ & _ & _ & _ & _ & _ & _
        & _ & Hs & _ & Hf).
  - vm_compute. do 10 right. left.
  - exists resp3. split; [exact Hs | exact Hf].
Defined.

(** X4. A run of the handler with an upload leaves every file alone except
    its two temporary files: the copy of the upload, which is still there when
    the run is over, and the output file. It takes one or two names from
    [tempfile] and never deletes a file. *)
Theorem run_touches_only_its_temp_files ep key E uf w :
  let w' := snd (process_audio ep key E (Some uf) w) in
  (∀ p, p ≠ upload_path E uf w → p ≠ output_path w → fs w' !! p = fs w !! p)
  ∧ is_Some (fs w' !! upload_path E uf w)
  ∧ (∀ p, is_Some (fs w !! p) → is_Some (fs w' !! p))
  ∧ (tmp_count w' = S (tmp_count w) ∨ tmp_count w' = S (S (tmp_count w))).
Proof.
  cbv zeta. rewrite process_audio_as_function. cbn [snd fs tmp_count].
  unfold handler_files, handler_count, pipeline_files, pipeline_count, after_upload.
  cbn [fs].
  assert (Hkeep : ∀ (m : gmap string bytes) k v p,
            is_Some (m !! p) → is_Some (<[k := v]> m !! p)).
  { intros m k v p Hp. destruct (decide (k = p)) as [->|Hne].
    - rewrite lookup_insert_eq. eauto.
    - by rewrite lookup_insert_ne. }
  destruct (reply_reached _ _ _ _) as [r|]; [destruct (tts_written _ _ _ _) as [c|]|].
  all: repeat split.
  all: try (intros p Hu Ho; by rewrite ?lookup_insert_ne by done).
  all: try (intros p Hp; by repeat apply Hkeep).
  all: try solve [apply Hkeep, Hkeep; rewrite lookup_insert_eq; eauto
                 | apply Hkeep; rewrite lookup_insert_eq; eauto
                 | rewrite lookup_insert_eq; eauto].
  all: try (by left); try (by right).
Qed.

(** X5. With the check box ticked, the diagnostic is shown exactly when no
    exception ended the run: an uncaught exception of the handler stops the
    script before it gets to the check box. *)
Theorem diagnostic_shown_unless_exception ep key E i w :
  show_apis i = true →
  (StWrite (diagnostic E) ∈ events_of (app ep key E i) w
   ↔ fst (app ep key E i w) = Ok ()).
Proof.
  intros Hshow.
  rewrite (events_of_shown _ _ _ _ _ (app_as_function ep key E i w) eq_refl).
  rewrite app_as_function. cbn [fst]. rewrite Hshow.
  destruct (process_clicked i).
  2:{ unfold diagnostic_outcome. destruct (secrets E); cbn [fst snd app];
        (split; [intros H; first [reflexivity | exfalso; not_among H]
                |first [discriminate | intros _; among]]). }
  destruct (uploaded_file i) as [uf|].
  2:{ unfold diagnostic_outcome. destruct (secrets E); cbn [handler_events fst snd app];
        (split; [intros H; first [reflexivity | exfalso; not_among H]
                |first [discriminate | intros _; among]]). }
  run_cases;
    (split; [intros H; first [reflexivity | exfalso; not_among H]
            |first [discriminate | intros _; among]]).
Qed.

(** With an endpoint that cannot be reached, the diagnostic is not shown. *)
Lemma diagnostic_skipped_sample :
  StWrite (diagnostic (env_answering (λ _, Raise RequestException)))
    ∉ events_of (app sample_ep sample_key (env_answering (λ _, Raise RequestException))
                     (UiInput None (Some sample_upload) true true))
                sample_world.
Proof.
  intros H.
  apply (diagnostic_shown_unless_exception sample_ep sample_key
           (env_answering (λ _, Raise RequestException))
           (UiInput None (Some sample_upload) true true) sample_world eq_refl) in H.
  vm_compute in H. discriminate H.
Defined.

Lemma configured_values ep key E s :
  config_missing ep key E s = false →
  truthy (endpoint_value ep E s) = true ∧ truthy (key_value key E s) = true.
Proof.
  unfold config_missing, endpoint_value, key_value. intros H.
  apply orb_false_elim in H as [H1 H2].
  by apply negb_false_iff in H1, H2.
Qed.

(** X6. An exception of the first call is not caught: when [requests.post]
    raises, or when the answer has status 200 and its body does not parse (it
    is not JSON, or not a JSON object), the handler ends with that exception
    right after the request. It shows no error line and creates no output
    file; the copy of the upload stays. *)
Theorem first_stage_exception_propagates ep key E uf w e :
  stage_configured ep key E Transcribe = true →
  http E (stt_request (endpoint_value ep E Transcribe) (key_value key E Transcribe)
                      (uf_data uf)) = Raise e
  ∨ (∃ resp,
       http E (stt_request (endpoint_value ep E Transcribe) (key_value key E Transcribe)
                           (uf_data uf)) = Ok resp
       ∧ status_code resp = 200%Z
       ∧ parse_json stt_extract resp = Raise e) →
  process_audio ep key E (Some uf) w =
    (Raise e,
     shown (after_upload E uf w)
       [StInfo (PStr (sending_msg Transcribe));
        HttpPost Transcribe
          (stt_request (endpoint_value ep E Transcribe) (key_value key E Transcribe)
                       (uf_data uf))]).
Proof.
  intros Hcfg H.
  assert (Hc : config_missing ep key E Transcribe = false).
  { unfold stage_configured in Hcfg. by destruct (config_missing _ _ _ _). }
  assert (Ho : stt_outcome ep key E (Some (uf_data uf))
               = (Raise e,
                  [StInfo (PStr (sending_msg Transcribe));
                   HttpPost Transcribe
                     (stt_request (endpoint_value ep E Transcribe)
                                  (key_value key E Transcribe) (uf_data uf))])).
  { unfold stt_outcome. destruct H as [H|(resp & Hh & Hs & Hp)].
    - by apply stage_outcome_raise.
    - rewrite (stage_outcome_200 ep key E _ _ _ _ resp) by done. by rewrite Hp. }
  rewrite process_audio_as_function.
  unfold handler_events, handler_files, handler_count, pipeline_events,
    pipeline_files, pipeline_count, reply_reached.
  by rewrite Ho.
Qed.

(** The sample deployment with an endpoint that answers with a JSON array. *)
Lemma first_stage_exception_sample :
  fst (process_audio sample_ep sample_key
         (env_answering (λ _, Ok (Response 200 "[]" [] (Some (PList [])))))
         (Some sample_upload) sample_world)
  = Raise AttributeError.
Proof.
  rewrite (first_stage_exception_propagates sample_ep sample_key
             (env_answering (λ _, Ok (Response 200 "[]" [] (Some (PList [])))))
             sample_upload sample_world AttributeError eq_refl).
  - reflexivity.
  - right. exists (Response 200 "[]" [] (Some (PList []))). by repeat split.
Defined.

(** X7. When the second call is answered with a status other than 200, the
    run has shown the transcript, sent two requests, shows the remote error
    and "LLM didn't return a reply.", and stops: no third request is sent
    and no output file is created. *)
Theorem generate_error_status_aborts ep key E uf w resp1 t resp2 :
  (∀ s, stage_configured ep key E s = true) →
  http E (stt_request (endpoint_value ep E Transcribe) (key_value key E Transcribe)
                      (uf_data uf)) = Ok resp1 →
  status_code resp1 = 200%Z →
  parse_json stt_extract resp1 = Ok t →
  truthy t = true →
  http E (llm_request (endpoint_value ep E Generate) (key_value key E Generate) t)
    = Ok resp2 →
  status_code resp2 ≠ 200%Z →
  process_audio ep key E (Some uf) w =
    (Ok (),
     shown (after_upload E uf w)
       [StInfo (PStr (sending_msg Transcribe));
        HttpPost Transcribe
          (stt_request (endpoint_value ep E Transcribe) (key_value key E Transcribe)
                       (uf_data uf));
        StMarkdown "**You said:**"; StInfo t;
        StInfo (PStr (sending_msg Generate));
        HttpPost Generate
          (llm_request (endpoint_value ep E Generate) (key_value key E Generate) t);
        StError (remote_error_msg Generate resp2);
        StError (empty_result_msg Generate)])
  ∧ http_stages (events_of (process_audio ep key E (Some uf)) w)
    = [Transcribe; Generate].
Proof.
  intros Hcfg Hh1 Hs1 Hp1 Ht Hh2 Hs2.
  assert (Hc : ∀ s, config_missing ep key E s = false).
  { intros s. specialize (Hcfg s). unfold stage_configured in Hcfg.
    by destruct (config_missing ep key E s). }
  assert (Ho1 : stt_outcome ep key E (Some (uf_data uf))
                = (Ok t,
                   [StInfo (PStr (sending_msg Transcribe));
                    HttpPost Transcribe
                      (stt_request (endpoint_value ep E Transcribe)
                                   (key_value key E Transcribe) (uf_data uf))])).
  { unfold stt_outcome. rewrite (stage_outcome_200 ep key E _ _ _ _ resp1) by done.
    by rewrite Hp1. }
  assert (Ho2 : llm_outcome ep key E t
                = (Ok (PStr ""),
                   [StInfo (PStr (sending_msg Generate));
                    HttpPost Generate
                      (llm_request (endpoint_value ep E Generate)
                                   (key_value key E Generate) t);
                    StError (remote_error_msg Generate resp2)])).
  { unfold llm_outcome. by rewrite (stage_outcome_status ep key E _ _ _ _ resp2). }
  eassert (Hrun : process_audio ep key E (Some uf) w = _).
  { rewrite process_audio_as_function.
    unfold handler_events, handler_files, handler_count, pipeline_events,
      pipeline_files, pipeline_count, reply_reached.
    rewrite Ho1. cbn [fst snd]. rewrite Ht. cbn [negb]. rewrite Ho2.
    cbn [fst snd]. change (truthy (PStr "")) with false. cbn [negb app].
    reflexivity. }
  split; [exact Hrun|].
  by rewrite (events_of_shown _ _ _ _ _ Hrun eq_refl).
Qed.

(** The sample deployment, with 503 from the endpoint for the second call. *)
Lemma generate_error_status_sample :
  errors_shown
    (events_of (process_audio sample_ep sample_key
                  (env_answering
                     (λ r, match req_body r with
                           | Files _ => Ok sample_stt_response
                           | Json _ => Ok (Response 503 "busy" [] None)
                           end))
                  (Some sample_upload))
               sample_world)
  = ["LLM API error: 503 busy"; "LLM didn't return a reply."].
Proof.
  destruct (generate_error_status_aborts sample_ep sample_key
              (env_answering
                 (λ r, match req_body r with
                       | Files _ => Ok sample_stt_response
                       | Json _ => Ok (Response 503 "busy" [] None)
                       end))
              sample_upload sample_world sample_stt_response (PStr "hello")
              (Response 503 "busy" [] None)) as [Hrun _];
    [by intros [] | reflexivity | reflexivity | reflexivity | reflexivity
    | reflexivity | discriminate |].
  rewrite (events_of_shown _ _ _ _ _ Hrun eq_refl). reflexivity.
Defined.

(** X8. When the third call is answered with a status other than 200, the
    run shows the remote error and "TTS failed.", plays nothing and ends in
    [Aborted]; the output file it created stays behind, empty. *)
Theorem synthesize_error_status_aborts ep key E uf w resp1 t resp2 r resp3 :
  (∀ s, stage_configured ep key E s = true) →
  http E (stt_request (endpoint_value ep E Transcribe) (key_value key E Transcribe)
                      (uf_data uf)) = Ok resp1 →
  status_code resp1 = 200%Z →
  parse_json stt_extract resp1 = Ok t →
  truthy t = true →
  http E (llm_request (endpoint_value ep E Generate) (key_value key E Generate) t)
    = Ok resp2 →
  status_code resp2 = 200%Z →
  parse_json llm_extract resp2 = Ok r →
  truthy r = true →
  http E (tts_request E (endpoint_value ep E Synthesize) (key_value key E Synthesize) r)
    = Ok resp3 →
  status_code resp3 ≠ 200%Z →
  let run := process_audio ep key E (Some uf) w in
  let evs := events_of (process_audio ep key E (Some uf)) w in
  fst run = Ok ()
  ∧ errors_shown evs
    = [remote_error_msg Synthesize resp3; empty_result_msg Synthesize]
  ∧ http_stages evs = [Transcribe; Generate; Synthesize]
  ∧ (∀ p, StAudio p ∉ evs)
  ∧ final_state (fst run) evs = Aborted
  ∧ fs (snd run) !! output_path w = Some []
  ∧ tmp_count (snd run) = S (S (tmp_count w)).
Proof.
  intros Hcfg Hh1 Hs1 Hp1 Ht Hh2 Hs2 Hp2 Hr Hh3 Hs3 run evs.
  assert (Hc : ∀ s, config_missing ep key E s = false).
  { intros s. specialize (Hcfg s). unfold stage_configured in Hcfg.
    by destruct (config_missing ep key E s). }
  assert (Ho1 : stt_outcome ep key E (Some (uf_data uf))
                = (Ok t,
                   [StInfo (PStr (sending_msg Transcribe));
                    HttpPost Transcribe
                      (stt_request (endpoint_value ep E Transcribe)
                                   (key_value key E Transcribe) (uf_data uf))])).
  { unfold stt_outcome. rewrite (stage_outcome_200 ep key E _ _ _ _ resp1) by done.
    by rewrite Hp1. }
  assert (Ho2 : llm_outcome ep key E t
                = (Ok r,
                   [StInfo (PStr (sending_msg Generate));
                    HttpPost Generate
                      (llm_request (endpoint_value ep E Generate)
                                   (key_value key E Generate) t)])).
  { unfold llm_outcome. rewrite (stage_outcome_200 ep key E _ _ _ _ resp2) by done.
    by rewrite Hp2. }
  assert (Ho3 : tts_outcome ep key E r (output_path w)
                = (Ok None,
                   [StInfo (PStr (sending_msg Synthesize));
                    HttpPost Synthesize
                      (tts_request E (endpoint_value ep E Synthesize)
                                   (key_value key E Synthesize) r);
                    StError (remote_error_msg Synthesize resp3)])).
  { unfold tts_outcome. by rewrite (stage_outcome_status ep key E _ _ _ _ resp3). }
  assert (Hw : tts_written ep key E r = None).
  { unfold tts_written. rewrite Hc, Hh3. apply Z.eqb_neq in Hs3. by rewrite Hs3. }
  eassert (Hrun : run = _).
  { unfold run. rewrite process_audio_as_function.
    unfold handler_events, handler_files, handler_count, pipeline_events,
      pipeline_files, pipeline_count, reply_reached.
    rewrite Ho1. cbn [fst snd]. rewrite Ht. cbn [negb]. rewrite Ho2.
    cbn [fst snd]. rewrite Hr. cbn [negb]. rewrite Ho3, Hw.
    cbn [fst snd playback_events app]. reflexivity. }
  assert (Hevs : evs = _) by
    (unfold evs; eapply events_of_shown; [exact Hrun | reflexivity]).
  rewrite Hevs, Hrun. cbn [fst snd fs tmp_count].
  repeat split; try done.
  - intros p H. not_among H.
  - apply lookup_insert_eq.
Qed.

(** The sample deployment, with 500 from the endpoint for the third call. *)
Lemma synthesize_error_status_sample :
  fs (snd (process_audio sample_ep sample_key
             (env_answering
                (λ r, match req_body r with
                      | Files _ => Ok sample_stt_response
                      | Json (PDict d) =>
                          match d !! "prompt" with
                          | Some _ => Ok sample_llm_response
                          | None => Ok (Response 500 "no voice" [] None)
                          end
                      | Json _ => Raise RequestException
                      end))
             (Some sample_upload) sample_world)) !! output_path sample_world
  = Some [].
Proof.
  pose proof (synthesize_error_status_aborts sample_ep sample_key
    (env_answering
       (λ r, match req_body r with
             | Files _ => Ok sample_stt_response
             | Json (PDict d) =>
                 match d !! "prompt" with
                 | Some _ => Ok sample_llm_response
                 | None => Ok (Response 500 "no voice" [] None)
                 end
             | Json _ => Raise RequestException
             end))
    sample_upload sample_world sample_stt_response (PStr "hello")
    sample_llm_response (PStr "hi there") (Response 500 "no voice" [] None)) as H.
  cbv zeta in H.
  destruct H as (_ & _ & _ & _ & _ & H6 & _);
    [by intros [] | reflexivity | reflexivity | reflexivity | reflexivity
    | reflexivity | reflexivity | reflexivity | reflexivity | reflexivity
    | discriminate |].
  exact H6.
Defined.

(** X9. An answer that is JSON but not an object has no transcript and no
    reply: the transcript lookup raises [AttributeError], and the reply lookup
    raises [TypeError] or [AttributeError], whatever the value. *)
Theorem non_object_answer_raises data :
  (∀ d, data ≠ PDict d) →
  stt_extract data = Raise AttributeError
  ∧ ∃ e, llm_extract data = Raise e ∧ (e = TypeError ∨ e = AttributeError).
Proof.
  intros Hd. destruct data as [|b|n|s|l|d]; try (by destruct (Hd d)).
  - split; [done|]. exists TypeError. by split; [|left].
  - split; [done|]. exists TypeError. by split; [|left].
  - split; [done|]. exists TypeError. by split; [|left].
  - split; [done|]. unfold llm_extract, has_choices, py_contains.
    cbn [mbind result_bind]. destruct (bool_decide _).
    + exists TypeError. by split; [|left].
    + exists AttributeError. by split; [|right].
  - split; [done|]. unfold llm_extract, has_choices, py_contains.
    cbn [mbind result_bind]. destruct (existsb _ l).
    + exists TypeError. by split; [|left].
    + exists AttributeError. by split; [|right].
Qed.

(** A JSON array of strings. *)
Lemma non_object_answer_sample :
  stt_extract (PList [PStr "choices"; PStr "text"]) = Raise AttributeError
  ∧ ∃ e, llm_extract (PList [PStr "choices"; PStr "text"]) = Raise e
         ∧ (e = TypeError ∨ e = AttributeError).
Proof.
  apply (non_object_answer_raises (PList [PStr "choices"; PStr "text"])).
  intros d H. discriminate H.
Defined.

(** X10. Without the button pressed, or without an uploaded file, a run of
    the page sends no request, writes no file and takes no temporary name. It
    ends as the check box ends: normally, unless the box is ticked and the
    secrets cannot be loaded, in which case the exception of the load ends
    the run. *)
Theorem no_request_without_button_and_upload ep key E i w :
  process_clicked i = false ∨ uploaded_file i = None →
  fst (app ep key E i w)
  = (if show_apis i then
       match secrets E with
       | Ok _ => Ok ()
       | Raise e => Raise e
       end
     else Ok ())
  ∧ http_stages (events_of (app ep key E i) w) = []
  ∧ fs (snd (app ep key E i w)) = fs w
  ∧ tmp_count (snd (app ep key E i w)) = tmp_count w.
Proof.
  intros H.
  rewrite (events_of_shown _ _ _ _ _ (app_as_function ep key E i w) eq_refl).
  rewrite app_as_function. cbn [fst snd fs tmp_count].
  destruct (process_clicked i).
  - destruct H as [H|H]; [done|]. rewrite H. cbn [handler_events handler_files
      handler_count fst snd]. by page_tail.
  - cbn [fst snd]. by page_tail.
Qed.

(** An upload without the button. *)
Lemma no_request_sample :
  http_stages
    (events_of (app sample_ep sample_key sample_env
                    (UiInput None (Some sample_upload) false true))
               sample_world) = [].
Proof.
  exact (proj1 (proj2 (no_request_without_button_and_upload sample_ep sample_key
           sample_env (UiInput None (Some sample_upload) false true) sample_world
           (or_introl eq_refl)))).
Defined.

(** X11. Every request of a run of the page goes to the URL read from the
    secrets for its stage, which is truthy, carries that stage's key, truthy
    too, as its first header, and has the time-out of its stage: 120 seconds
    for the first and third stage, 60 for the second. *)
Theorem requests_go_to_the_configured_endpoint ep key E i w s rq :
  HttpPost s rq ∈ events_of (app ep key E i) w →
  url rq = endpoint_value ep E s
  ∧ truthy (url rq) = true
  ∧ head (headers rq) = Some ("Authorization", Bearer (key_value key E s))
  ∧ truthy (key_value key E s) = true
  ∧ timeout rq = match s with Generate => 60%Z | _ => 120%Z end.
Proof.
  rewrite (events_of_shown _ _ _ _ _ (app_as_function ep key E i w) eq_refl).
  destruct (process_clicked i);
    [|cbn [fst snd app]; page_tail; intros H; not_among H].
  destruct (uploaded_file i) as [uf|];
    [|cbn [handler_events fst snd app]; page_tail; intros H; not_among H].
  run_cases; destruct (show_apis i); cbn [fst snd app]; intros H;
    repeat match goal with
           | Hc : config_missing _ _ _ _ = false |- _ =>
               apply configured_values in Hc as [? ?]
           end;
    repeat (apply elem_of_cons in H as [H|H];
            [first [discriminate H
                   | injection H as -> ->;
                     repeat split; first [reflexivity | assumption] ]|]);
    by apply elem_of_nil in H.
Qed.

(** The second request of the sample run. *)
Lemma requests_sample :
  url (llm_request (PStr "https://api.example/v1") (PStr "k") (PStr "hello"))
  = endpoint_value sample_ep sample_env Generate.
Proof.
  refine (proj1 (requests_go_to_the_configured_endpoint sample_ep sample_key
            sample_env (UiInput None (Some sample_upload) true false) sample_world
            Generate (llm_request (PStr "https://api.example/v1") (PStr "k")
                                  (PStr "hello")) _)).
  vm_compute. do 8 right. left.
Defined.



(** X13. [save_base64_audio_to_file] decodes before it opens the file, and
    writes only once the file is open. When the text does not decode, or when
    [open] refuses the path, the exception leaves every file as it was (the
    one of the decoding comes first). When both succeed, the file holds the
    decoded bytes (reading it gives them back), the other files are untouched,
    nothing is shown and the path is returned. *)
Theorem save_base64_decodes_before_writing b64decode open_error b64 out w :
  let save := save_base64_audio_to_file b64decode open_error b64 out in
  (∀ e, b64decode b64 = Raise e → save w = (Raise e, w))
  ∧ (∀ data e, b64decode b64 = Ok data → open_error out = Some e →
       save w = (Raise e, w))
  ∧ (∀ data, b64decode b64 = Ok data → open_error out = None →
       fst (save w) = Ok out
       ∧ fst ((save ;; open_rb out) w) = Ok data
       ∧ (∀ p, p ≠ out → fs (snd (save w)) !! p = fs w !! p)
       ∧ trace (snd (save w)) = trace w
       ∧ tmp_count (snd (save w)) = tmp_count w).
Proof.
  cbv zeta. unfold save_base64_audio_to_file, open_wb_write, lift, write_file, open_rb.
  unfold mbind, M_bind, mret, M_ret. split; [|split].
  - intros e ->. reflexivity.
  - intros data e -> ->. reflexivity.
  - intros data -> ->. cbn [fst snd fs tmp_count trace].
    rewrite lookup_insert_eq. repeat split; try done.
    intros p Hp. by rewrite lookup_insert_ne.
Qed.

(** A path in a directory that does not exist: [open] refuses it, and the
    call raises without a file. *)
Lemma save_base64_refused_sample :
  save_base64_audio_to_file
    (λ _, Ok [Byte.x2a])
    (λ p, if String.eqb p "/nodir/rec.wav" then Some FileNotFoundError else None)
    "Kg==" "/nodir/rec.wav" sample_world
  = (Raise FileNotFoundError, sample_world).
Proof.
  exact (proj1 (proj2 (save_base64_decodes_before_writing
                         (λ _, Ok [Byte.x2a])
                         (λ p, if String.eqb p "/nodir/rec.wav"
                               then Some FileNotFoundError else None)
                         "Kg==" "/nodir/rec.wav" sample_world))
               [Byte.x2a] FileNotFoundError eq_refl eq_refl).
Defined.

(** X14. A run of the handler does not depend on what earlier runs left
    behind: from two worlds with the same temporary-file counter, whatever
    their files and their events so far, the same upload gives the same result
    and the same events. *)
Theorem run_ignores_earlier_leftovers ep key E o w1 w2 :
  tmp_count w1 = tmp_count w2 →
  fst (process_audio ep key E o w1) = fst (process_audio ep key E o w2)
  ∧ events_of (process_audio ep key E o) w1 = events_of (process_audio ep key E o) w2.
Proof.
  intros Hn. rewrite !process_audio_events, !process_audio_as_function. cbn [fst].
  assert (Hh : handler_events ep key E o w1 = handler_events ep key E o w2).
  { destruct o as [uf|]; [|done]. unfold handler_events, output_path. by rewrite Hn. }
  by rewrite Hh.
Qed.

(** A second run of the sample, over the files and events of a first one. *)
Lemma run_ignores_leftovers_sample :
  events_of (process_audio sample_ep sample_key sample_env (Some sample_upload))
            (World {["/tmp/tmp0.wav" := sample_audio]} 0 [StBalloons])
  = events_of (process_audio sample_ep sample_key sample_env (Some sample_upload))
              sample_world.
Proof.
  exact (proj2 (run_ignores_earlier_leftovers sample_ep sample_key sample_env
                  (Some sample_upload)
                  (World {["/tmp/tmp0.wav" := sample_audio]} 0 [StBalloons])
                  sample_world eq_refl)).
Defined.

(** X15. A run of the handler shows at most two error lines, and never an
    error line together with the audio: once an error line is shown the run
    ends in [Aborted], unless an exception ends it, and nothing is played. *)
Theorem errors_exclude_playback ep key E o w :
  let evs := events_of (process_audio ep key E o) w in
  (length (errors_shown evs) ≤ 2)%nat
  ∧ (errors_shown evs = [] ∨ existsb is_audio evs = false)
  ∧ (errors_shown evs = [] ∨
     final_state (fst (process_audio ep key E o w)) evs = Aborted).
Proof.
  cbv zeta. rewrite process_audio_events, process_audio_as_function. cbn [fst].
  destruct o as [uf|].
  2:{ cbn [handler_events fst snd]. repeat split; [cbn; lia|by left|by left]. }
  run_cases; (split; [cbn; lia|]); split;
    first [left; reflexivity | right; reflexivity].
Qed.

(** X16. [call_tts_api] returns the path exactly when it has written the body
    of an answer with status 200 to it; in every other case (configuration
    missing, exception, other status) it touches no file, so what was at
    [out_path] stays. *)
Theorem tts_writes_exactly_when_it_returns_the_path ep key E r out w :
  let run := call_tts_api ep key E r out w in
  (fst run = Ok (Some out)
   ∧ ∃ resp,
       http E (tts_request E (endpoint_value ep E Synthesize)
                           (key_value key E Synthesize) r) = Ok resp
       ∧ status_code resp = 200%Z
       ∧ fs (snd run) = <[out := content resp]> (fs w))
  ∨ ((fst run = Ok None ∨ ∃ e, fst run = Raise e) ∧ fs (snd run) = fs w).
Proof.
  cbv zeta. rewrite call_tts_api_outcome. cbn [fst snd fs].
  unfold tts_outcome, tts_written.
  destruct (stage_outcome_cases ep key E Synthesize None
              (tts_request E (endpoint_value ep E Synthesize)
                           (key_value key E Synthesize) r)
              (λ _, Ok (Some out)))
    as [(e & Hl & Ho)
       |(table & Hl & [[Hc Ho]|[(Hc & e & Hh & Ho)
                |[(Hc & resp & Hh & Hs & Ho)|(Hc & resp & Hh & Hs & Ho)]]])];
    rewrite Ho; [rewrite (config_missing_unloaded ep key E Synthesize e Hl)
                |rewrite Hc ..]; cbn [fst].
  - right. split; [right; eauto|done].
  - right. by split; [left|].
  - right. rewrite Hh. split; [right; eauto|done].
  - right. rewrite Hh. apply Z.eqb_neq in Hs. rewrite Hs. by split; [left|].
  - left. rewrite Hh, Hs. split; [done|]. by exists resp.
Qed.

Lemma stt_extract_truthy_or_empty data v :
  stt_extract data = Ok v → truthy v = true ∨ v = PStr "".
Proof.
  destruct data as [| | | | |d]; try discriminate.
  unfold stt_extract, py_get, py_or. cbn [mbind result_bind].
  destruct (truthy (default PNone (d !! "text"))) eqn:H1; [intros [= <-]; by left|].
  destruct (truthy (default PNone (d !! "transcript"))) eqn:H2;
    [intros [= <-]; by left|].
  destruct (truthy (default PNone (d !! "result"))) eqn:H3;
    intros [= <-]; [by left|by right].
Qed.

(** X17. Whatever the secrets, the file and the endpoint, [call_stt_api]
    returns a truthy value or the empty string: never [None] nor another
    falsy value, so the handler's test [not user_text] singles out exactly the
    empty string. *)
Theorem stt_result_truthy_or_empty ep key E p w v :
  fst (call_stt_api ep key E p w) = Ok v →
  truthy v = true ∨ v = PStr "".
Proof.
  rewrite call_stt_api_outcome. cbn [fst]. unfold stt_outcome.
  destruct (fs w !! p) as [f|].
  2:{ unfold stage_outcome. destruct (secrets E); [|discriminate].
      destruct (config_missing _ _ _ _); cbn [fst].
      - intros [= <-]. by right.
      - discriminate. }
  destruct (stage_outcome_cases ep key E Transcribe (PStr "")
              (stt_request (endpoint_value ep E Transcribe)
                           (key_value key E Transcribe) f)
              (parse_json stt_extract))
    as [(e & Hl & Ho)
       |(table & Hl & [[Hc Ho]|[(Hc & e & Hh & Ho)
                |[(Hc & resp & Hh & Hs & Ho)|(Hc & resp & Hh & Hs & Ho)]]])];
    rewrite Ho; cbn [fst]; try (intros [= <-]; by right); try discriminate.
  unfold parse_json. destruct (json resp) as [data|]; [|discriminate].
  apply stt_extract_truthy_or_empty.
Qed.

(** A number as the transcript. *)
Lemma stt_result_sample :
  truthy (PInt 7) = true ∨ PInt 7 = PStr "".
Proof.
  apply (stt_result_truthy_or_empty sample_ep sample_key
           (env_answering (λ _, Ok (Response 200 "" [] (Some (PDict {["text" := PInt 7]})))))
           "/tmp/clip" (World {["/tmp/clip" := sample_audio]} 0 []) (PInt 7)).
  reflexivity.
Defined.

